(** * The Target product-page spider: a shallow embedding

    Source files:
    - [target_scraper/spiders/target_spider.py]: [TargetSpider] with
      [__init__], [parse] and [_parse_fallback];
    - [target_scraper/items.py]: the eleven declared fields of [TargetItem].

    Python values are an inductive type, Python strings are [string]
    (characters are the code points below 256), the item is a finite map on
    the declared fields, and the statements of [parse] run in a small monad
    that threads the item being filled and the trace of XPath queries, and
    that carries Python exceptions.

    The two library calls the spider relies on are Section variables: the
    selector engine behind [response.xpath], a function from the document
    text and the XPath expression to the strings extracted, and
    [json.loads], a function from the JSON text to the decoded value or to
    the exception the decoder raises: [JSONDecodeError] for a malformed
    text, and the errors the [except] clause of [parse] does not name,
    such as the plain [ValueError] for an integer literal beyond the digit
    limit and [RecursionError] for too deep a nesting.  [start_requests]
    only hands the start URL to the request classes of the framework and
    is not modelled.  The responses are text responses, the ones [parse]
    can read and select from; calls of the logger only write to the log
    and are left out. *)

From Stdlib Require Import ZArith List String Ascii Bool Lia Arith.
From Stdlib Require Import Floats.SpecFloat.
Import ListNotations.
Open Scope string_scope.

Set Warnings "-register-all".

(** ** Python strings *)

Module PyStr.

(** A double quote cannot be typed inside a string literal here, so the
    XPath expressions and JSON texts of the source are written with a
    backquote where the source has a double quote; [dq] puts it back. *)
Definition dq_char (c : ascii) : ascii :=
  if Ascii.eqb c (ascii_of_nat 96) then ascii_of_nat 34 else c.

Fixpoint dq (s : string) : string :=
  match s with
  | EmptyString => EmptyString
  | String c s' => String (dq_char c) (dq s')
  end.

(** [str.isspace] on the code points below 256: 9-13, 28-32, 133 and 160. *)
Definition isspace (c : ascii) : bool :=
  let n := nat_of_ascii c in
  ((9 <=? n)%nat && (n <=? 13)%nat) || ((28 <=? n)%nat && (n <=? 32)%nat)
  || (n =? 133)%nat || (n =? 160)%nat.

Definition is_empty (s : string) : bool :=
  match s with EmptyString => true | String _ _ => false end.

(** [s.lstrip(chars)] and [s.rstrip(chars)], with the set of characters
    given as a predicate. *)
Fixpoint lstrip_by (p : ascii -> bool) (s : string) : string :=
  match s with
  | EmptyString => EmptyString
  | String c s' => if p c then lstrip_by p s' else s
  end.

Fixpoint rstrip_by (p : ascii -> bool) (s : string) : string :=
  match s with
  | EmptyString => EmptyString
  | String c s' =>
      let t := rstrip_by p s' in
      if is_empty t && p c then EmptyString else String c t
  end.

(** [s.strip()] *)
Definition strip (s : string) : string :=
  rstrip_by isspace (lstrip_by isspace s).

(** [s.rstrip(';')] *)
Definition rstrip_semicolon (s : string) : string :=
  rstrip_by (Ascii.eqb ";"%char) s.

Fixpoint drop (n : nat) (s : string) : string :=
  match n, s with
  | O, _ => s
  | S _, EmptyString => EmptyString
  | S n', String _ s' => drop n' s'
  end.

Fixpoint take (n : nat) (s : string) : string :=
  match n, s with
  | O, _ => EmptyString
  | S _, EmptyString => EmptyString
  | S n', String c s' => String c (take n' s')
  end.

(** [s.find(sep)]: the index of the leftmost occurrence. *)
Fixpoint find (sep s : string) : option nat :=
  if prefix sep s then Some O
  else match s with
       | EmptyString => None
       | String _ s' => option_map S (find sep s')
       end.

(** [s.split(sep)] for a non-empty [sep] (every separator of the source is
    a non-empty literal): cut at the leftmost occurrence, continue behind
    it.  Each cut consumes at least one character, so [length s] rounds are
    enough. *)
Fixpoint split_fuel (fuel : nat) (sep s : string) : list string :=
  match fuel with
  | O => [s]
  | S fuel' =>
      match find sep s with
      | None => [s]
      | Some i => take i s :: split_fuel fuel' sep (drop (i + length sep) s)
      end
  end.

Definition split (sep s : string) : list string :=
  split_fuel (length s) sep s.

End PyStr.

(** ** Python values *)

Module Py.

(** The objects the spider handles: what [json.loads] returns ([None],
    [bool], [int], [float], [str], [list], [dict] with string keys) and what
    the fallback builds (strings, lists of strings, a dict of strings).  A
    [dict] is the list of its items in insertion order, keys distinct.
    A [float] is an IEEE 754 binary64 value. *)
Inductive value : Type :=
| VNone
| VBool (b : bool)
| VInt (z : Z)
| VFloat (f : spec_float)
| VStr (s : string)
| VList (l : list value)
| VDict (d : list (string * value)).

Inductive exn : Type :=
| JSONDecodeError
| IndexError
| AttributeError
| ValueError
| RecursionError.

Definition result (A : Type) : Type := (exn + A)%type.

Definition exn_eqb (a b : exn) : bool :=
  match a, b with
  | JSONDecodeError, JSONDecodeError => true
  | IndexError, IndexError => true
  | AttributeError, AttributeError => true
  | ValueError, ValueError => true
  | RecursionError, RecursionError => true
  | _, _ => false
  end.

(** [bool(v)] *)
Definition truthy (v : value) : bool :=
  match v with
  | VNone => false
  | VBool b => b
  | VInt z => negb (z =? 0)%Z
  | VFloat f => match f with S754_zero _ => false | _ => true end
  | VStr s => negb (PyStr.is_empty s)
  | VList l => match l with [] => false | _ => true end
  | VDict d => match d with [] => false | _ => true end
  end.

(** Truth value of what [.get()] of a selector list returns: [None] and the
    empty string are false. *)
Definition truthy_str (o : option string) : bool :=
  match o with
  | None => false
  | Some s => negb (PyStr.is_empty s)
  end.

(** *** Equality

    Numbers compare by value across [bool], [int] and [float], exactly. *)
Definition float_eq_int (f : spec_float) (z : Z) : bool :=
  match f with
  | S754_zero _ => (z =? 0)%Z
  | S754_finite s m e =>
      let v := if s then Z.neg m else Z.pos m in
      if (0 <=? e)%Z then (z =? v * 2 ^ e)%Z else (z * 2 ^ (- e) =? v)%Z
  | _ => false
  end.

Definition is_nan (v : value) : bool :=
  match v with VFloat S754_nan => true | _ => false end.

Definition int_of_bool (b : bool) : Z := if b then 1%Z else 0%Z.

(** Comparison of two container elements: [x is y or x == y].  Every NaN
    that [json.loads] returns is the one object [json.decoder.NaN], so
    inside lists and dicts NaN equals NaN; on every other value identity
    implies equality. *)
Fixpoint eq_elem (a b : value) {struct a} : bool :=
  match a, b with
  | VNone, VNone => true
  | VBool x, VBool y => Bool.eqb x y
  | VBool x, VInt y => (int_of_bool x =? y)%Z
  | VInt x, VBool y => (x =? int_of_bool y)%Z
  | VBool x, VFloat y => float_eq_int y (int_of_bool x)
  | VFloat x, VBool y => float_eq_int x (int_of_bool y)
  | VInt x, VInt y => (x =? y)%Z
  | VInt x, VFloat y => float_eq_int y x
  | VFloat x, VInt y => float_eq_int x y
  | VFloat x, VFloat y =>
      match x, y with
      | S754_nan, S754_nan => true
      | _, _ => SFeqb x y
      end
  | VStr x, VStr y => String.eqb x y
  | VList x, VList y =>
      (fix eq_list (l : list value) (r : list value) {struct l} : bool :=
         match l, r with
         | [], [] => true
         | u :: l', v :: r' => eq_elem u v && eq_list l' r'
         | _, _ => false
         end) x y
  | VDict x, VDict y =>
      (List.length x =? List.length y)%nat
      && (fix sub_dict (l : list (string * value)) {struct l} : bool :=
            match l with
            | [] => true
            | (k, u) :: l' =>
                match List.find (fun kv => String.eqb (fst kv) k) y with
                | Some (_, v) => eq_elem u v && sub_dict l'
                | None => false
                end
            end) x
  | _, _ => false
  end.

(** [a == b] and [a != b] on the values themselves: two NaN floats are
    unequal. *)
Definition py_eq (a b : value) : bool :=
  if is_nan a && is_nan b then false else eq_elem a b.

Definition py_ne (a b : value) : bool := negb (py_eq a b).

(** *** Dicts *)

Fixpoint lookup (k : string) (d : list (string * value)) : option value :=
  match d with
  | [] => None
  | (k', v) :: d' => if String.eqb k' k then Some v else lookup k d'
  end.

(** [d[k] = v]: replaces the value of an existing key in place, otherwise
    appends the item. *)
Fixpoint dict_set (k : string) (v : value) (d : list (string * value))
  : list (string * value) :=
  match d with
  | [] => [(k, v)]
  | (k', v') :: d' =>
      if String.eqb k' k then (k', v) :: d' else (k', v') :: dict_set k v d'
  end.

(** [{key(x): val(x) for x in xs}] *)
Definition dict_comp {A : Type} (key : A -> string) (val : A -> value)
    (xs : list A) : list (string * value) :=
  fold_left (fun d x => dict_set (key x) (val x) d) xs [].

(** [d.get(k, default)] on a dict *)
Definition dict_get (d : list (string * value)) (k : string)
    (default : value) : value :=
  match lookup k d with
  | Some v => v
  | None => default
  end.

(** [o.get(k, default)]: only a [dict] has the method; on any other object
    the attribute access raises [AttributeError]. *)
Definition get_default (o : value) (k : string) (default : value)
  : result value :=
  match o with
  | VDict d => inr (dict_get d k default)
  | _ => inl AttributeError
  end.

(** [o.get(k)] *)
Definition get (o : value) (k : string) : result value :=
  get_default o k VNone.

(** [xs[i]] for a non-negative literal [i] *)
Definition index {A : Type} (xs : list A) (i : nat) : result A :=
  match nth_error xs i with
  | Some x => inr x
  | None => inl IndexError
  end.

End Py.

Import Py.

(** ** [items.py]: the declared fields of [TargetItem] *)

Module Items.

Inductive field : Type :=
| product_name
| categories
| model_no
| tcin_id
| images
| specifications
| description
| variant
| price
| discount_price
| sellers.

Definition field_eqb (f g : field) : bool :=
  match f, g with
  | product_name, product_name
  | categories, categories
  | model_no, model_no
  | tcin_id, tcin_id
  | images, images
  | specifications, specifications
  | description, description
  | variant, variant
  | price, price
  | discount_price, discount_price
  | sellers, sellers => true
  | _, _ => false
  end.

(** A [scrapy.Item] is a mapping from its declared fields to the values
    assigned so far. *)
Definition Item : Type := field -> option value.

(** [TargetItem()] *)
Definition TargetItem : Item := fun _ => None.

(** [item[f] = v] *)
Definition setitem (f : field) (v : value) (item : Item) : Item :=
  fun g => if field_eqb g f then Some v else item g.

End Items.

Import Items.

(** ** The statements of the spider: item state, query trace, exceptions *)

Module Run.

Record state : Type := mkState {
  st_item : Item;
  st_queries : list string
}.

Definition M (A : Type) : Type := state -> result A * state.

Definition ret {A : Type} (a : A) : M A := fun st => (inr a, st).

Definition bind {A B : Type} (m : M A) (k : A -> M B) : M B :=
  fun st =>
    match m st with
    | (inr a, st') => k a st'
    | (inl e, st') => (inl e, st')
    end.

Definition raise {A : Type} (e : exn) : M A := fun st => (inl e, st).

(** An expression of the source that can raise but touches neither the
    item nor the selectors. *)
Definition lift {A : Type} (r : result A) : M A := fun st => (r, st).

(** [try: body except (e1, e2, ...): handler]; the handler runs on the state
    the body left behind. *)
Definition try_except {A : Type} (body : M A) (handles : exn -> bool)
    (handler : M A) : M A :=
  fun st =>
    match body st with
    | (inl e, st') => if handles e then handler st' else (inl e, st')
    | ok => ok
    end.

(** [item[f] = v] on the item being filled *)
Definition assign (f : field) (v : value) : M unit :=
  fun st => (inr tt, mkState (setitem f v (st_item st)) (st_queries st)).

(** Recording that a query was evaluated *)
Definition asked (q : string) : M unit :=
  fun st => (inr tt, mkState (st_item st) (st_queries st ++ [q])).

(** A statement that leaves the field [f] of the item as it was, whether
    it completes or raises *)
Definition keeps_field (f : field) {A : Type} (m : M A) : Prop :=
  forall st r st', m st = (r, st') -> st_item st' f = st_item st f.

(** A statement that lets no exception out but [AttributeError] *)
Definition raises_only_attribute {A : Type} (m : M A) : Prop :=
  forall st e st', m st = (inl e, st') -> e = AttributeError.

End Run.

Import Run.

Declare Scope spider_scope.
Delimit Scope spider_scope with spider.
Notation "x <- m ;; k" := (bind m (fun x => k))
  (at level 61, m at next level, right associativity) : spider_scope.
Notation "m ;; k" := (bind m (fun _ => k))
  (at level 61, right associativity) : spider_scope.

(** ** The properties in the words of the specification *)

Module Spec.

(** The first attempt that yields a value *)
Fixpoint first_hit (results : list (option string)) : option string :=
  match results with
  | [] => None
  | o :: rest => if truthy_str o then o else first_hit rest
  end.

(** How many attempts are made when each one is tried only if all the
    earlier ones yielded nothing *)
Fixpoint attempts_made (results : list (option string)) : nat :=
  match results with
  | [] => O
  | o :: rest => if truthy_str o then 1 else S (attempts_made rest)
  end.

(** [s] truncated at the first [c] *)
Fixpoint before_first (c : ascii) (s : string) : string :=
  match s with
  | EmptyString => EmptyString
  | String a s' => if Ascii.eqb a c then EmptyString
                   else String a (before_first c s')
  end.

(** [s = pre ++ sep ++ post] is the last occurrence of [sep] in [s]: no
    occurrence starts further right *)
Definition last_occurrence (sep s pre post : string) : Prop :=
  s = pre ++ sep ++ post
  /\ forall pre' post', s = pre' ++ sep ++ post' ->
                        length pre' <= length pre.

Definition occurs (sep s : string) : Prop :=
  exists pre post, s = pre ++ sep ++ post.

(** No proper suffix of [sep] is a prefix of it, so two occurrences of
    [sep] never overlap *)
Definition unbordered (sep : string) : bool :=
  forallb (fun d => negb (prefix (PyStr.drop d sep) sep))
          (seq 1 (length sep - 1)).

(** A mapping from label strings to value strings *)
Definition str_mapping (v : value) : Prop :=
  exists d, v = VDict d
            /\ NoDup (map fst d)
            /\ Forall (fun kv => exists s, snd kv = VStr s) d.

End Spec.

(** ** [target_spider.py] *)

(** A text response of [scrapy] (an [HtmlResponse]), the kind that has a
    [text] and answers [xpath]; [parse] reads [url] and, through the
    selectors, [text]. *)
Record Response : Type := mkResponse {
  url : string;
  status : Z;
  text : string
}.

(** The attributes [__init__] sets on the spider *)
Record Spider : Type := mkSpider {
  start_urls : list string;
  use_splash : bool
}.

Module Queries.

Definition initial_state_xpath : string :=
  PyStr.dq "//script[contains(text(), `window.__INITIAL_STATE__`)]/text()".
Definition product_name_xpath : string :=
  PyStr.dq "//h1[contains(@class, `Heading`)]/text()".
Definition categories_xpath : string :=
  PyStr.dq "//nav[@aria-label=`Breadcrumbs`]//a[@data-test=`@web/Breadcrumbs/BreadcrumbLink`]/text()".
Definition images_xpath : string :=
  PyStr.dq "//div[contains(@class, `styles_zoomableImage__R_OOf`)]//img/@src".
Definition specs_xpath : string :=
  PyStr.dq "//div[@data-test=`item-details-specifications`]//div/div/div[1]/b/text()".
Definition specs_values_xpath : string :=
  PyStr.dq "//div[@data-test=`item-details-specifications`]//div/div/div[1]/text()".
Definition fallback_specs_xpath : string :=
  PyStr.dq "//div[@data-test=`item-details-specifications`]//div//text()".
Definition description_xpath_1 : string :=
  PyStr.dq "//div[contains(@class, `h-margin-t-x2`) and @data-test=`item-details-description`]//text()".
Definition description_xpath_2 : string :=
  PyStr.dq "//h4[contains(@class, `styles_ndsHeading__HcGpD`) and contains(text(), `Description`)]/following-sibling::div//div[contains(@class, `h-margin-t-x2`)]//text()".
Definition description_xpath_3 : string :=
  PyStr.dq "//meta[@name=`description`]/@content".
Definition price_xpath_1 : string :=
  PyStr.dq "//span[@data-test=`product-price`]/text()".
Definition price_xpath_2 : string :=
  PyStr.dq "//span[contains(@class, `sc-4d225cde-1`)]/text()".
Definition price_xpath_3 : string :=
  PyStr.dq "//span[@data-test=`product-price`]//text()".
Definition price_xpath_4 : string :=
  PyStr.dq "//div[contains(@class, `price`)]//span/text()".
Definition price_xpath_5 : string :=
  PyStr.dq "//span[contains(text(), `$`)]/text()".
Definition sale_price_xpath_1 : string :=
  PyStr.dq "//span[@data-test=`sale-price`]/text()".
Definition sale_price_xpath_2 : string :=
  PyStr.dq "//span[contains(@class, `sale-price`)]/text()".

(** The five price attempts of [_parse_fallback], in source order *)
Definition price_xpaths : list string :=
  [price_xpath_1; price_xpath_2; price_xpath_3; price_xpath_4; price_xpath_5].

(** Every other query of the spider *)
Definition other_xpaths : list string :=
  [initial_state_xpath; product_name_xpath; categories_xpath; images_xpath;
   specs_xpath; specs_values_xpath; fallback_specs_xpath;
   description_xpath_1; description_xpath_2; description_xpath_3;
   sale_price_xpath_1; sale_price_xpath_2].

End Queries.

Import Queries.

Module TargetSpider.

(** [__init__(self, url=None)]: [None] is the default of a [url] that was
    not passed; [splash_installed] tells whether the import of
    [scrapy_splash] at the top of the module succeeded. *)
Definition __init__ (splash_installed : bool) (url : option string)
  : result Spider :=
  match url with
  | Some u =>
      if negb (PyStr.is_empty u)
      then inr (mkSpider [u] splash_installed)
      else inl ValueError
  | None => inl ValueError
  end.

(** [u.split('/-/A-')[-1].split('#')[0]], the expression of lines 40 and 83 *)
Definition url_id (u : string) : string :=
  hd EmptyString
     (PyStr.split "#" (last (PyStr.split "/-/A-" u) EmptyString)).

Definition str_or_none (o : option string) : value :=
  match o with
  | Some s => VStr s
  | None => VNone
  end.

(** [any(d.strip() for d in description)] *)
Definition any_nonblank (l : list string) : bool :=
  existsb (fun d => negb (PyStr.is_empty (PyStr.strip d))) l.

(** [not description or not any(d.strip() for d in description)] *)
Definition no_description (l : list string) : bool :=
  match l with
  | [] => true
  | _ => negb (any_nonblank l)
  end.

Section Engine.

(** [select doc q] is [Selector(text=doc).xpath(q).getall()], the strings
    the selector engine extracts from the document with the XPath
    expression [q]; [loads] is [json.loads], which returns the decoded
    value or raises: [JSONDecodeError] for a text that is not JSON, a
    plain [ValueError] for an integer literal beyond the digit limit,
    [RecursionError] for too deep a nesting. *)
Variable select : string -> string -> list string.
Variable loads : string -> result value.

Local Open Scope spider_scope.

(** [response.xpath(q).getall()] *)
Definition xpath_getall (response : Response) (q : string) : M (list string) :=
  asked q ;; ret (select (text response) q).

(** [response.xpath(q).get()]: the first string, or [None] *)
Definition xpath_get (response : Response) (q : string) : M (option string) :=
  l <- xpath_getall response q ;;
  ret (hd_error l).

(** [json.loads(s)], with whatever it raises *)
Definition json_loads (s : string) : result value := loads s.

(** Lines 119-133: the price attempts *)
Definition fallback_price (response : Response) : M unit :=
  price <- xpath_get response price_xpath_1 ;;
  price <- (if negb (truthy_str price)
            then xpath_get response price_xpath_2 else ret price) ;;
  price <- (if negb (truthy_str price)
            then xpath_get response price_xpath_3 else ret price) ;;
  price <- (if negb (truthy_str price)
            then xpath_get response price_xpath_4 else ret price) ;;
  price <- (if negb (truthy_str price)
            then xpath_get response price_xpath_5 else ret price) ;;
  assign Items.price
    (if truthy_str price
     then str_or_none (option_map PyStr.strip price) else VNone).

(** Lines 91-106: the specifications *)
Definition fallback_specifications (response : Response) : M unit :=
  specs <- xpath_getall response specs_xpath ;;
  specs_values <- xpath_getall response specs_values_xpath ;;
  let specifications :=
    dict_comp (fun sv => PyStr.strip (fst sv))
              (fun sv => VStr (PyStr.strip (snd sv)))
              (combine specs specs_values) in
  specifications <-
    (match specifications with
     | [] =>
         l <- xpath_getall response fallback_specs_xpath ;;
         ret (dict_comp PyStr.strip (fun _ => VStr EmptyString) l)
     | _ => ret specifications
     end) ;;
  assign Items.specifications (VDict specifications).

(** Lines 110-115: the description, a list of text nodes from either of the
    first two attempts, else the string of the meta tag, else [''] *)
Definition fallback_description (response : Response) : M unit :=
  description <- xpath_getall response description_xpath_1 ;;
  description <-
    (if no_description description
     then xpath_getall response description_xpath_2 else ret description) ;;
  description <-
    (if no_description description
     then d <- xpath_get response description_xpath_3 ;; ret (str_or_none d)
     else ret (VList (map VStr description))) ;;
  assign Items.description
    (if truthy description then description else VStr EmptyString).

Definition _parse_fallback (response : Response) : M unit :=
  name <- xpath_get response product_name_xpath ;;
  assign product_name (str_or_none name) ;;
  cats <- xpath_getall response categories_xpath ;;
  assign categories
    (match cats with
     | [] => VList []
     | _ => VList (map (fun cat => VStr (PyStr.strip cat))
                    (filter (fun cat => negb (PyStr.is_empty (PyStr.strip cat)))
                            cats))
     end) ;;
  assign model_no (VStr (url_id (url response))) ;;
  imgs <- xpath_getall response images_xpath ;;
  assign images (VList (map VStr imgs)) ;;
  fallback_specifications response ;;
  fallback_description response ;;
  fallback_price response ;;
  sale <- xpath_get response sale_price_xpath_1 ;;
  sale <- (if truthy_str sale
           then ret sale else xpath_get response sale_price_xpath_2) ;;
  assign discount_price
    (if truthy_str sale
     then str_or_none (option_map PyStr.strip sale) else VNone) ;;
  assign sellers (VList [VStr "Target"]).

(** Line 47: cut the JSON text out of the script *)
Definition blob_text (script_data : string) : result string :=
  match index (PyStr.split "window.__INITIAL_STATE__ = " script_data) 1 with
  | inr part => inr (PyStr.rstrip_semicolon (PyStr.strip part))
  | inl e => inl e
  end.

(** Lines 47-48: and decode it *)
Definition decode_blob (script_data : string) : result value :=
  match blob_text script_data with
  | inr json_data => json_loads json_data
  | inl e => inl e
  end.

(** Lines 49-50 *)
Definition product_section (data : value) (k : string) : result value :=
  match get_default data "product" (VDict []) with
  | inr product => get_default product k (VDict [])
  | inl e => inl e
  end.

(** Line 59: [a or b or c], each operand evaluated only when needed *)
Definition json_price (price_data : value) : result value :=
  match get price_data "current_retail" with
  | inr a =>
      if truthy a then inr a
      else match get price_data "formatted_current_price" with
           | inr b => if truthy b then inr b else get price_data "price"
           | inl e => inl e
           end
  | inl e => inl e
  end.

(** Line 60: the condition is evaluated first, then the chosen branch *)
Definition json_discount_price (price_data : value) : result value :=
  match get price_data "current_retail_min" with
  | inr m =>
      match get price_data "current_retail" with
      | inr c => if py_ne m c then get price_data "current_retail_min"
                 else inr VNone
      | inl e => inl e
      end
  | inl e => inl e
  end.

(** Lines 49-61: from the decoded blob to the fields of the item *)
Definition fill_from_json (data : value) : M unit :=
  product_data <- lift (product_section data "details") ;;
  price_data <- lift (product_section data "price") ;;
  v <- lift (get product_data "title") ;;
  assign product_name v ;;
  v <- lift (get_default product_data "categories" (VList [])) ;;
  assign categories v ;;
  v <- lift (get product_data "modelNumber") ;;
  assign model_no v ;;
  v <- lift (get_default product_data "images" (VList [])) ;;
  assign images v ;;
  v <- lift (get_default product_data "specifications" (VList [])) ;;
  assign specifications v ;;
  v <- lift (get_default product_data "description" (VStr EmptyString)) ;;
  assign description v ;;
  v <- lift (get_default product_data "variant" (VStr EmptyString)) ;;
  assign variant v ;;
  v <- lift (json_price price_data) ;;
  assign price v ;;
  v <- lift (json_discount_price price_data) ;;
  assign discount_price v ;;
  assign sellers (VList [VStr "Target"]).

(** Lines 47-61: the body of the [try] *)
Definition parse_json (script_data : string) : M unit :=
  data <- lift (decode_blob script_data) ;;
  fill_from_json data.

Definition caught (e : exn) : bool :=
  exn_eqb e JSONDecodeError || exn_eqb e IndexError.

Definition parse (self : Spider) (response : Response) : M unit :=
  assign tcin_id (VStr (url_id (url response))) ;;
  script_data <- xpath_get response initial_state_xpath ;;
  match script_data with
  | Some script_data =>
      if negb (PyStr.is_empty script_data)
      then try_except (parse_json script_data) caught
                      (_parse_fallback response)
      else _parse_fallback response
  | None => _parse_fallback response
  end.

(** One call of [parse] by the framework: a fresh item, no query asked yet *)
Definition run_parse (self : Spider) (response : Response)
  : result unit * state :=
  parse self response (mkState TargetItem []).

(** The item [parse] yields, or the exception that leaves it *)
Definition yielded (self : Spider) (response : Response) : result Item :=
  match run_parse self response with
  | (inr _, st) => inr (st_item st)
  | (inl e, _) => inl e
  end.

(** The queries one call of [parse] evaluates, in order *)
Definition queries (self : Spider) (response : Response) : list string :=
  st_queries (snd (run_parse self response)).

(** *** Which path a response takes *)

(** What line 44 binds to [script_data] *)
Definition script_of (response : Response) : option string :=
  hd_error (select (text response) initial_state_xpath).

(** The decoded blob, when the script is there and lines 47-48 succeed *)
Definition blob (response : Response) : option value :=
  match script_of response with
  | Some script_data =>
      if negb (PyStr.is_empty script_data)
      then match decode_blob script_data with
           | inr data => Some data
           | inl _ => None
           end
      else None
  | None => None
  end.

(** [_parse_fallback] is what fills the item: no script, or an exception of
    lines 47-48 that the [except] clause names *)
Definition takes_fallback (response : Response) : bool :=
  match script_of response with
  | Some script_data =>
      if negb (PyStr.is_empty script_data)
      then match decode_blob script_data with
           | inr _ => false
           | inl e => caught e
           end
      else true
  | None => true
  end.

(** The exception of lines 47-48 that the [except] clause does not name
    and that therefore leaves [parse] *)
Definition escapes (response : Response) : option exn :=
  match script_of response with
  | Some script_data =>
      if negb (PyStr.is_empty script_data)
      then match decode_blob script_data with
           | inr _ => None
           | inl e => if caught e then None else Some e
           end
      else None
  | None => None
  end.

(** The state in which either path starts: [tcin_id] assigned, the script
    query asked *)
Definition entry_state (response : Response) : state :=
  mkState (setitem tcin_id (VStr (url_id (url response))) TargetItem)
          [initial_state_xpath].

(** What each price attempt returns on the response *)
Definition price_results (response : Response) : list (option string) :=
  map (fun q => hd_error (select (text response) q)) price_xpaths.

End Engine.

End TargetSpider.

(** ** Fixtures: pages, the strings the selectors extract from them, and
    the values of the JSON texts they embed *)

Module Fixtures.

Definition product_url : string :=
  "https://www.target.com/p/hp-inc-essential-laptop-computer-17-3-hd-intel-core-8-gb-memory-256-gb-ssd/-/A-92469343#lnk=sametab".

Definition script_text (json : string) : string :=
  "window.__INITIAL_STATE__ = " ++ json ++ ";".

Definition blob_page (json : string) : string :=
  "<html><head><script>" ++ script_text json
  ++ "</script></head><body></body></html>".

(** A price object without [current_retail] *)
Definition json_no_retail : string :=
  PyStr.dq "{`product`: {`price`: {`price`: 5, `current_retail_min`: 5}}}".
Definition value_no_retail : value :=
  VDict [("product",
          VDict [("price",
                  VDict [("price", VInt 5); ("current_retail_min", VInt 5)])])].

(** A reduced price *)
Definition json_reduced : string :=
  PyStr.dq "{`product`: {`details`: {`title`: `Lamp`, `specifications`: {`Weight`: `5 lb`}}, `price`: {`current_retail`: 10, `current_retail_min`: 8}}}".
Definition value_reduced : value :=
  VDict [("product",
          VDict [("details",
                  VDict [("title", VStr "Lamp");
                         ("specifications", VDict [("Weight", VStr "5 lb")])]);
                 ("price",
                  VDict [("current_retail", VInt 10);
                         ("current_retail_min", VInt 8)])])].

(** Specifications given as a list of lines *)
Definition json_spec_lines : string :=
  PyStr.dq "{`product`: {`details`: {`specifications`: [`Weight: 5 lb`]}}}".
Definition value_spec_lines : value :=
  VDict [("product",
          VDict [("details",
                  VDict [("specifications", VList [VStr "Weight: 5 lb"])])])].

(** Well-formed JSON that is not an object *)
Definition json_array : string := "[1]".
Definition value_array : value := VList [VInt 1].

(** Malformed JSON *)
Definition json_malformed : string := "{oops".

(** An object without a [product] entry *)
Definition json_empty_object : string := "{}".
Definition value_empty_object : value := VDict [].

(** A page without the script: a regular price and a sale price *)
Definition sale_page : string :=
  "<html><body><span data-test='product-price'>$5</span><span data-test='sale-price'>$5</span></body></html>".

(** A page without the script whose only price markup is the generic one *)
Definition generic_price_page : string :=
  "<html><body><div class='price'><span> $7 </span></div></body></html>".

(** A page with an empty blob and price markup *)
Definition priced_blob_page : string :=
  "<html><head><script>" ++ script_text json_empty_object
  ++ "</script></head><body><span data-test='product-price'>$5</span></body></html>".

(** A page on which no selector of the spider matches *)
Definition bare_page : string := "<html><body></body></html>".

Definition script_only (json : string) : list (string * list string) :=
  [(initial_state_xpath, [script_text json])].

(** Per page, the queries of the spider that match and what they extract *)
Definition pages : list (string * list (string * list string)) :=
  [ (blob_page json_no_retail, script_only json_no_retail);
    (blob_page json_reduced, script_only json_reduced);
    (blob_page json_spec_lines, script_only json_spec_lines);
    (blob_page json_array, script_only json_array);
    (blob_page json_malformed, script_only json_malformed);
    (sale_page,
     [ (price_xpath_1, ["$5"]); (price_xpath_3, ["$5"]);
       (price_xpath_5, ["$5"; "$5"]); (sale_price_xpath_1, ["$5"]) ]);
    (generic_price_page,
     [ (price_xpath_4, [" $7 "]); (price_xpath_5, [" $7 "]) ]);
    (priced_blob_page,
     [ (initial_state_xpath, [script_text json_empty_object]);
       (price_xpath_1, ["$5"]); (price_xpath_3, ["$5"]);
       (price_xpath_5, ["$5"]) ]);
    (bare_page, []) ].

Fixpoint assoc {A : Type} (k : string) (l : list (string * A)) : option A :=
  match l with
  | [] => None
  | (k', a) :: l' => if String.eqb k' k then Some a else assoc k l'
  end.

Definition assoc_default {A : Type} (d : A) (k : string)
  (l : list (string * A)) : A :=
  match assoc k l with
  | Some a => a
  | None => d
  end.

(** The selector engine on the fixture pages *)
Definition select (doc q : string) : list string :=
  match assoc doc pages with
  | Some table => match assoc q table with Some l => l | None => [] end
  | None => []
  end.

(** [json.loads] on the fixture texts; any other text is malformed *)
Definition loads (s : string) : result value :=
  match assoc s [ (json_no_retail, value_no_retail);
                  (json_reduced, value_reduced);
                  (json_spec_lines, value_spec_lines);
                  (json_array, value_array);
                  (json_empty_object, value_empty_object) ] with
  | Some v => inr v
  | None => inl JSONDecodeError
  end.

Definition response_of (page : string) : Response :=
  mkResponse product_url 200 page.

Definition spider : Spider := mkSpider [product_url] true.

(** The product URL around its marker *)
Definition product_url_head : string :=
  "https://www.target.com/p/hp-inc-essential-laptop-computer-17-3-hd-intel-core-8-gb-memory-256-gb-ssd".
Definition product_url_tail : string := "92469343#lnk=sametab".

End Fixtures.

(** ** What the fallback computes, field by field

    Closed forms of the blocks of [_parse_fallback], used to follow one run
    of [parse] through to the item and the trace it leaves. *)

Module Closed.

Import TargetSpider.

(** The first and the last character of a string *)
Definition first_char (s : string) : option ascii :=
  match s with
  | EmptyString => None
  | String c _ => Some c
  end.

Fixpoint last_char (s : string) : option ascii :=
  match s with
  | EmptyString => None
  | String c EmptyString => Some c
  | String _ s' => last_char s'
  end.

(** Neither the first nor the last character is white space *)
Definition no_outer_space (s : string) : Prop :=
  (forall c, first_char s = Some c -> PyStr.isspace c = false)
  /\ (forall c, last_char s = Some c -> PyStr.isspace c = false).

(** [sep.join(pieces)] *)
Fixpoint join (sep : string) (pieces : list string) : string :=
  match pieces with
  | [] => EmptyString
  | [p] => p
  | p :: rest => p ++ sep ++ join sep rest
  end.

(** Decidable absence of repetitions in a list of strings *)
Fixpoint nodupb (l : list string) : bool :=
  match l with
  | [] => true
  | x :: l' => negb (existsb (String.eqb x) l') && nodupb l'
  end.

(** The seventeen queries of the spider, in source order *)
Definition all_xpaths : list string :=
  [initial_state_xpath; product_name_xpath; categories_xpath; images_xpath;
   specs_xpath; specs_values_xpath; fallback_specs_xpath;
   description_xpath_1; description_xpath_2; description_xpath_3;
   price_xpath_1; price_xpath_2; price_xpath_3; price_xpath_4; price_xpath_5;
   sale_price_xpath_1; sale_price_xpath_2].

(** A statement that evaluates no query, whether it completes or raises *)
Definition asks_nothing {A : Type} (m : M A) : Prop :=
  forall st r st', m st = (r, st') -> st_queries st' = st_queries st.

Section Engine.

Variable select : string -> string -> list string.

(** Line 80 *)
Definition categories_value (response : Response) : value :=
  match select (text response) categories_xpath with
  | [] => VList []
  | cats =>
      VList (map (fun cat => VStr (PyStr.strip cat))
               (filter (fun cat => negb (PyStr.is_empty (PyStr.strip cat)))
                       cats))
  end.

(** Lines 94-98: the labels zipped with the values *)
Definition specs_pairs (response : Response) : list (string * string) :=
  combine (select (text response) specs_xpath)
          (select (text response) specs_values_xpath).

Definition primary_specs (response : Response) : list (string * value) :=
  dict_comp (fun sv => PyStr.strip (fst sv))
            (fun sv => VStr (PyStr.strip (snd sv)))
            (specs_pairs response).

(** Lines 101-106 *)
Definition specs_value (response : Response) : list (string * value) :=
  match primary_specs response with
  | [] => dict_comp PyStr.strip (fun _ => VStr EmptyString)
            (select (text response) fallback_specs_xpath)
  | d => d
  end.

Definition specs_trace (response : Response) : list string :=
  [specs_xpath; specs_values_xpath]
  ++ match primary_specs response with
     | [] => [fallback_specs_xpath]
     | _ => []
     end.

(** Lines 110-115 *)
Definition description_value (response : Response) : value :=
  let d1 := select (text response) description_xpath_1 in
  let d2 := select (text response) description_xpath_2 in
  let d :=
    if no_description d1
    then if no_description d2
         then str_or_none (hd_error (select (text response) description_xpath_3))
         else VList (map VStr d2)
    else VList (map VStr d1) in
  if truthy d then d else VStr EmptyString.

Definition description_trace (response : Response) : list string :=
  description_xpath_1
  :: (if no_description (select (text response) description_xpath_1)
      then description_xpath_2
           :: (if no_description (select (text response) description_xpath_2)
               then [description_xpath_3] else [])
      else []).

(** Lines 137-139 *)
Definition sale_value (response : Response) : value :=
  let s1 := hd_error (select (text response) sale_price_xpath_1) in
  let s := if truthy_str s1 then s1
           else hd_error (select (text response) sale_price_xpath_2) in
  if truthy_str s then str_or_none (option_map PyStr.strip s) else VNone.

Definition sale_trace (response : Response) : list string :=
  sale_price_xpath_1
  :: (if truthy_str (hd_error (select (text response) sale_price_xpath_1))
      then [] else [sale_price_xpath_2]).

(** Lines 119-133 *)
Definition price_value (response : Response) : value :=
  match Spec.first_hit (price_results select response) with
  | Some p => VStr (PyStr.strip p)
  | None => VNone
  end.

Definition price_trace (response : Response) : list string :=
  firstn (Spec.attempts_made (price_results select response)) price_xpaths.

(** The queries [_parse_fallback] evaluates, in order *)
Definition fallback_trace (response : Response) : list string :=
  [product_name_xpath; categories_xpath; images_xpath]
  ++ specs_trace response ++ description_trace response
  ++ price_trace response ++ sale_trace response.

(** The item [_parse_fallback] leaves *)
Definition fallback_item (response : Response) (item : Item) : Item :=
  setitem sellers (VList [VStr "Target"])
  (setitem discount_price (sale_value response)
  (setitem price (price_value response)
  (setitem description (description_value response)
  (setitem specifications (VDict (specs_value response))
  (setitem images (VList (map VStr (select (text response) images_xpath)))
  (setitem model_no (VStr (url_id (url response)))
  (setitem categories (categories_value response)
  (setitem product_name
     (str_or_none (hd_error (select (text response) product_name_xpath)))
     item)))))))).

End Engine.

(** The item lines 51-61 leave when both sections of the blob are dicts *)
Definition json_item (pd pr : list (string * value)) (item : Item) : Item :=
  setitem sellers (VList [VStr "Target"])
  (setitem discount_price
     (let m := dict_get pr "current_retail_min" VNone in
      if py_ne m (dict_get pr "current_retail" VNone) then m else VNone)
  (setitem price
     (let a := dict_get pr "current_retail" VNone in
      if truthy a then a
      else let b := dict_get pr "formatted_current_price" VNone in
           if truthy b then b else dict_get pr "price" VNone)
  (setitem variant (dict_get pd "variant" (VStr ""))
  (setitem description (dict_get pd "description" (VStr ""))
  (setitem specifications (dict_get pd "specifications" (VList []))
  (setitem images (dict_get pd "images" (VList []))
  (setitem model_no (dict_get pd "modelNumber" VNone)
  (setitem categories (dict_get pd "categories" (VList []))
  (setitem product_name (dict_get pd "title" VNone) item))))))))).

End Closed.

(** ** More fixtures: a product page with markup for every fallback field *)

Module Catalog.

(** Breadcrumbs (one of them blank), a title, one specification, a
    description, a regular price and a sale price marked by its class *)
Definition detail_page : string :=
  "<html><body><nav aria-label='Breadcrumbs'><a data-test='@web/Breadcrumbs/BreadcrumbLink'> Home </a><a data-test='@web/Breadcrumbs/BreadcrumbLink'> </a><a data-test='@web/Breadcrumbs/BreadcrumbLink'>Lamps</a></nav><h1 class='Heading'>Lamp</h1><div data-test='item-details-specifications'><div><div><div><b>Weight:</b> 5 lb</div></div></div></div><div class='h-margin-t-x2' data-test='item-details-description'>Bright.</div><span data-test='product-price'>$5</span><span class='sale-price'> $4 </span></body></html>".

(** Specifications as plain lines, one of them blank *)
Definition plain_specs_page : string :=
  "<html><body><div data-test='item-details-specifications'><div>Material: steel</div><div> </div></div></body></html>".

(** A blob with a null entry and equal regular and minimum price *)
Definition json_null_entry : string :=
  PyStr.dq "{`product`: {`details`: {`title`: `Lamp`, `categories`: null}, `price`: {`current_retail`: 10, `current_retail_min`: 10}}}".
Definition value_null_entry : value :=
  VDict [("product",
          VDict [("details",
                  VDict [("title", VStr "Lamp"); ("categories", VNone)]);
                 ("price",
                  VDict [("current_retail", VInt 10);
                         ("current_retail_min", VInt 10)])])].

(** A blob whose [details] is not an object *)
Definition json_details_string : string :=
  PyStr.dq "{`product`: {`details`: `none`}}".
Definition value_details_string : value :=
  VDict [("product", VDict [("details", VStr "none")])].

(** A blob that is one integer literal of 4301 digits, one more than the
    decoder converts *)
Fixpoint digits (n : nat) : string :=
  match n with
  | O => EmptyString
  | S n' => String "1"%char (digits n')
  end.
Definition json_huge_integer : string := digits 4301.

Definition pages : list (string * list (string * list string)) :=
  [ (detail_page,
     [ (product_name_xpath, ["Lamp"]);
       (categories_xpath, [" Home "; " "; "Lamps"]);
       (specs_xpath, ["Weight:"]);
       (specs_values_xpath, [" 5 lb"]);
       (fallback_specs_xpath, ["Weight:"; " 5 lb"]);
       (description_xpath_1, ["Bright."]);
       (price_xpath_1, ["$5"]); (price_xpath_3, ["$5"]);
       (price_xpath_5, ["$5"; " $4 "]);
       (sale_price_xpath_2, [" $4 "]) ]);
    (plain_specs_page,
     [ (fallback_specs_xpath, ["Material: steel"; " "]) ]);
    (Fixtures.blob_page json_null_entry,
     Fixtures.script_only json_null_entry);
    (Fixtures.blob_page json_details_string,
     Fixtures.script_only json_details_string);
    (Fixtures.blob_page json_huge_integer,
     Fixtures.script_only json_huge_integer) ].

(** The selector engine on these pages *)
Definition select (doc q : string) : list string :=
  match Fixtures.assoc doc pages with
  | Some table =>
      match Fixtures.assoc q table with Some l => l | None => [] end
  | None => []
  end.

(** [json.loads] on the texts of these pages; any other text is
    malformed *)
Definition loads (s : string) : result value :=
  Fixtures.assoc_default (inl JSONDecodeError) s
    [ (json_null_entry, inr value_null_entry);
      (json_details_string, inr value_details_string);
      (json_huge_integer, inl ValueError) ].

Definition response_of (page : string) : Response :=
  mkResponse Fixtures.product_url 200 page.

End Catalog.

(** * Facts about the string operations *)

Module StrFacts.

Import PyStr.

Lemma append_assoc (a b c : string) : (a ++ b) ++ c = a ++ b ++ c.
Proof. induction a as [|x a IH]; simpl; congruence. Qed.

Lemma length_append (a b : string) : length (a ++ b) = length a + length b.
Proof. induction a as [|x a IH]; simpl; congruence. Qed.

Lemma length_zero (s : string) : length s = 0 -> s = "".
Proof. destruct s; simpl; [reflexivity | discriminate]. Qed.

Lemma take_append (a b : string) : take (length a) (a ++ b) = a.
Proof. induction a as [|x a IH]; simpl; [destruct b|]; congruence. Qed.

Lemma drop_append (a b : string) : drop (length a) (a ++ b) = b.
Proof. induction a as [|x a IH]; simpl; congruence. Qed.

(** Two ways of cutting one string: the shorter head is a head of the
    longer one. *)
Lemma append_eq_append (a b c d : string) :
  a ++ b = c ++ d -> length a <= length c ->
  exists x, c = a ++ x /\ b = x ++ d.
Proof.
  revert c; induction a as [|x a IH]; intros c H L.
  - exists c; simpl in *; auto.
  - destruct c as [|y c]; simpl in *; [lia|].
    injection H as -> H.
    destruct (IH c H ltac:(lia)) as [z [-> ->]].
    exists z; auto.
Qed.

Lemma append_inv_head (a b c : string) : a ++ b = a ++ c -> b = c.
Proof. induction a as [|x a IH]; simpl; intros H; [|injection H]; auto. Qed.

Lemma prefix_iff (a s : string) :
  prefix a s = true <-> exists t, s = a ++ t.
Proof.
  revert s; induction a as [|x a IH]; intros s.
  - destruct s; simpl; split; eauto.
  - destruct s as [|y s]; simpl.
    + split; [discriminate | intros [t H]; discriminate].
    + destruct (ascii_dec x y) as [->|N].
      * rewrite IH; split; intros [t H]; exists t; congruence.
      * split; [discriminate | intros [t H]; congruence].
Qed.

Lemma find_nil (sep : string) :
  find sep "" = if prefix sep "" then Some 0 else None.
Proof. reflexivity. Qed.

Lemma find_cons (sep : string) (c : ascii) (s : string) :
  find sep (String c s)
  = if prefix sep (String c s) then Some 0 else option_map S (find sep s).
Proof. reflexivity. Qed.

(** [find] returns the leftmost occurrence. *)
Lemma find_some (sep s : string) (i : nat) :
  find sep s = Some i ->
  exists pre post,
    s = pre ++ sep ++ post /\ length pre = i
    /\ forall pre' post', s = pre' ++ sep ++ post' -> i <= length pre'.
Proof.
  revert i; induction s as [|c s IH]; intros i.
  - rewrite find_nil. destruct (prefix sep "") eqn:P; [|discriminate].
    intros [= <-]. apply prefix_iff in P as [t P].
    exists "", t; simpl; repeat split; auto. intros; lia.
  - rewrite find_cons. destruct (prefix sep (String c s)) eqn:P.
    + intros [= <-]. apply prefix_iff in P as [t P].
      exists "", t; simpl; repeat split; auto. intros; lia.
    + destruct (find sep s) as [j|] eqn:F; simpl; [|discriminate].
      intros [= <-].
      destruct (IH j eq_refl) as (pre & post & E & L & Min).
      exists (String c pre), post; simpl; repeat split; try congruence.
      intros [|y pre'] post' E'; simpl in E'.
      * assert (prefix sep (String c s) = true) by (apply prefix_iff; eauto).
        congruence.
      * injection E' as _ E'. specialize (Min _ _ E'). simpl; lia.
Qed.

Lemma find_none (sep s : string) :
  find sep s = None -> ~ Spec.occurs sep s.
Proof.
  induction s as [|c s IH].
  - rewrite find_nil. destruct (prefix sep "") eqn:P; [discriminate|].
    intros _ (pre & post & E).
    destruct pre; simpl in E; [|discriminate].
    assert (prefix sep "" = true) by (apply prefix_iff; eauto). congruence.
  - rewrite find_cons. destruct (prefix sep (String c s)) eqn:P; [discriminate|].
    destruct (find sep s) eqn:F; simpl; [discriminate|].
    intros _ (pre & post & E).
    destruct pre as [|y pre]; simpl in E.
    + assert (prefix sep (String c s) = true) by (apply prefix_iff; eauto).
      congruence.
    + injection E as _ E. apply IH; [reflexivity|]. now exists pre, post.
Qed.

Lemma split_fuel_not_nil (fuel : nat) (sep s : string) :
  split_fuel fuel sep s <> [].
Proof.
  destruct fuel; simpl; [discriminate|].
  destruct (find sep s); discriminate.
Qed.

Lemma last_cons_not_nil {A : Type} (x d : A) (l : list A) :
  l <> [] -> last (x :: l) d = last l d.
Proof. destruct l; [congruence | reflexivity]. Qed.

(** Without an occurrence of the separator the string is returned whole. *)
Lemma split_fuel_absent (fuel : nat) (sep s : string) :
  ~ Spec.occurs sep s -> split_fuel fuel sep s = [s].
Proof.
  intros N. destruct fuel; simpl; [reflexivity|].
  destruct (find sep s) as [i|] eqn:F; [|reflexivity].
  destruct (find_some _ _ _ F) as (pre & post & E & _).
  exfalso. apply N. now exists pre, post.
Qed.

(** Behind the leftmost occurrence, [split] continues on the rest. *)
Lemma split_fuel_step (fuel : nat) (sep s : string) (i : nat) :
  find sep s = Some i ->
  exists pre post,
    s = pre ++ sep ++ post /\ length pre = i
    /\ split_fuel (S fuel) sep s = pre :: split_fuel fuel sep post.
Proof.
  intros F. destruct (find_some _ _ _ F) as (pre & post & E & L & _).
  exists pre, post. repeat split; auto.
  simpl. rewrite F. f_equal.
  - subst s. rewrite <- L. apply take_append.
  - f_equal. subst s. rewrite <- L, <- length_append, <- append_assoc.
    apply drop_append.
Qed.

(** Two occurrences of an unbordered separator do not overlap. *)
Lemma unbordered_apart (sep s p1 t1 p2 t2 : string) :
  Spec.unbordered sep = true ->
  s = p1 ++ sep ++ t1 -> s = p2 ++ sep ++ t2 ->
  length p1 < length p2 -> length p1 + length sep <= length p2.
Proof.
  intros U E1 E2 L.
  destruct (Nat.le_gt_cases (length p1 + length sep) (length p2)) as [|G];
    [assumption | exfalso].
  rewrite E1 in E2.
  destruct (append_eq_append _ _ _ _ E2 ltac:(lia)) as (x & -> & E3).
  rewrite length_append in L, G.
  symmetry in E3.
  destruct (append_eq_append x (sep ++ t2) sep t1 E3 ltac:(lia))
    as (y & Ey & E4).
  unfold Spec.unbordered in U. rewrite forallb_forall in U.
  specialize (U (length x)).
  assert (I : In (length x) (seq 1 (length sep - 1)))
    by (apply in_seq; lia).
  apply U in I. apply negb_true_iff in I.
  assert (D : drop (length x) sep = y)
    by (rewrite Ey; apply drop_append).
  rewrite D in I.
  assert (Ly : length y <= length sep).
  { rewrite Ey, length_append. lia. }
  symmetry in E4.
  destruct (append_eq_append y t1 sep t2 E4 Ly) as (z & Ez & _).
  assert (prefix y sep = true) by (apply prefix_iff; eauto).
  congruence.
Qed.

(** The last piece [split] returns starts right behind the last occurrence
    of an unbordered, non-empty separator. *)
Lemma split_fuel_last (sep : string) :
  Spec.unbordered sep = true -> 0 < length sep ->
  forall fuel s pre post,
    length s <= fuel ->
    Spec.last_occurrence sep s pre post ->
    last (split_fuel fuel sep s) "" = post.
Proof.
  intros U NE. induction fuel as [|fuel IH]; intros s pre post Lf [E Max].
  - exfalso. subst s. rewrite !length_append in Lf. lia.
  - destruct (find sep s) as [i|] eqn:F.
    2: { exfalso. apply (find_none _ _ F). now exists pre, post. }
    destruct (find_some _ _ _ F) as (p1' & t1' & E1' & L1' & Min).
    destruct (split_fuel_step fuel _ _ _ F) as (p1 & t1 & E1 & L1 & ->).
    rewrite last_cons_not_nil by apply split_fuel_not_nil.
    assert (Lt : length t1 < length s).
    { rewrite E1, !length_append. lia. }
    pose proof (Min _ _ E) as Lp.
    destruct (Nat.eq_dec (length pre) i) as [Eq|Ne].
    + (* the leftmost occurrence is the last one *)
      assert (x : exists x, pre = p1 ++ x /\ sep ++ t1 = x ++ sep ++ post).
      { apply append_eq_append; [congruence | lia]. }
      destruct x as (x & Ex & Et).
      assert (x = "").
      { apply length_zero. rewrite Ex, length_append in Eq. lia. }
      subst x. simpl in Et. apply append_inv_head in Et. subst t1.
      rewrite split_fuel_absent; [reflexivity|].
      intros (a & b & Eab).
      specialize (Max (p1 ++ sep ++ a) b).
      rewrite !length_append in Max.
      assert (length p1 + (length sep + length a) <= length pre).
      { apply Max. rewrite E1, Eab, !append_assoc. reflexivity. }
      lia.
    + (* the last occurrence lies behind the leftmost one *)
      assert (G : length p1 + length sep <= length pre)
        by (apply (unbordered_apart sep s p1 t1 pre post U E1 E); lia).
      assert (x : exists x, pre = (p1 ++ sep) ++ x /\ t1 = x ++ sep ++ post).
      { apply append_eq_append.
        - rewrite append_assoc. congruence.
        - rewrite length_append. lia. }
      destruct x as (x & Ex & Et).
      apply (IH t1 x post); [lia|].
      split; [assumption|].
      intros a b Eab.
      specialize (Max (p1 ++ sep ++ a) b).
      rewrite Ex, !length_append in *.
      assert (length p1 + (length sep + length a)
              <= length p1 + length sep + length x).
      { apply Max. rewrite E1, Eab, !append_assoc. reflexivity. }
      lia.
Qed.

(** The first piece of a split at a character is the string truncated at
    the first occurrence of that character. *)
Lemma find_char (c : ascii) (s : string) :
  match find (String c "") s with
  | Some i => take i s = Spec.before_first c s
  | None => s = Spec.before_first c s
  end.
Proof.
  induction s as [|a s IH]; [reflexivity|].
  rewrite find_cons. simpl prefix. simpl Spec.before_first.
  destruct (ascii_dec c a) as [->|N].
  - rewrite Ascii.eqb_refl. now destruct s.
  - assert (Ascii.eqb a c = false) as -> by (apply Ascii.eqb_neq; congruence).
    destruct (find (String c "") s); simpl; congruence.
Qed.

Lemma split_char_head (c : ascii) (s : string) :
  hd "" (split (String c "") s) = Spec.before_first c s.
Proof.
  unfold split. destruct s as [|a s]; [reflexivity|].
  cbn [length split_fuel].
  pose proof (find_char c (String a s)) as H.
  destruct (find (String c "") (String a s)); simpl; assumption.
Qed.

End StrFacts.

(** * Facts about the spider *)

Module SpiderFacts.

Import TargetSpider.

(** ** Dict comprehensions *)

Lemma dict_set_keys (k : string) (v : value) (d : list (string * value)) :
  forall k', In k' (map fst (dict_set k v d)) <-> k' = k \/ In k' (map fst d).
Proof.
  induction d as [|[k0 v0] d IH]; intros k'; simpl.
  - intuition congruence.
  - destruct (String.eqb_spec k0 k) as [->|N]; simpl.
    + intuition congruence.
    + rewrite IH. intuition congruence.
Qed.

Lemma dict_set_nodup (k : string) (v : value) (d : list (string * value)) :
  NoDup (map fst d) -> NoDup (map fst (dict_set k v d)).
Proof.
  induction d as [|[k0 v0] d IH]; simpl; intros H.
  - constructor; [intros [] | constructor].
  - inversion H as [|? ? Hn Hd]; subst.
    destruct (String.eqb_spec k0 k) as [->|N]; simpl.
    + constructor; assumption.
    + constructor; [|auto].
      rewrite dict_set_keys. intros [->|I]; auto.
Qed.

Lemma dict_set_forall (P : value -> Prop) (k : string) (v : value)
    (d : list (string * value)) :
  P v -> Forall (fun kv => P (snd kv)) d ->
  Forall (fun kv => P (snd kv)) (dict_set k v d).
Proof.
  intros Pv. induction d as [|[k0 v0] d IH]; simpl; intros H.
  - constructor; [assumption | constructor].
  - inversion H; subst.
    destruct (String.eqb k0 k); constructor; auto.
Qed.

(** A comprehension builds a dict: distinct keys, and every value is one
    the value expression produced. *)
Lemma dict_comp_wf {A : Type} (P : value -> Prop) (key : A -> string)
    (val : A -> value) (xs : list A) :
  (forall x, P (val x)) ->
  NoDup (map fst (dict_comp key val xs))
  /\ Forall (fun kv => P (snd kv)) (dict_comp key val xs).
Proof.
  intros HP. unfold dict_comp.
  assert (G : forall d,
             NoDup (map fst d) /\ Forall (fun kv => P (snd kv)) d ->
             let d' := fold_left (fun d x => dict_set (key x) (val x) d) xs d in
             NoDup (map fst d') /\ Forall (fun kv => P (snd kv)) d').
  { induction xs as [|x xs IH]; intros d [N F]; simpl; [auto|].
    apply IH. split; [apply dict_set_nodup | apply dict_set_forall]; auto. }
  apply G. split; constructor.
Qed.

(** ** The blocks of [_parse_fallback] *)

Section Properties.

Variable select : string -> string -> list string.
Variable loads : string -> result value.

Local Arguments initial_state_xpath : simpl never.
Local Arguments product_name_xpath : simpl never.
Local Arguments categories_xpath : simpl never.
Local Arguments images_xpath : simpl never.
Local Arguments specs_xpath : simpl never.
Local Arguments specs_values_xpath : simpl never.
Local Arguments fallback_specs_xpath : simpl never.
Local Arguments description_xpath_1 : simpl never.
Local Arguments description_xpath_2 : simpl never.
Local Arguments description_xpath_3 : simpl never.
Local Arguments sale_price_xpath_1 : simpl never.
Local Arguments sale_price_xpath_2 : simpl never.
Local Arguments price_xpaths : simpl never.
Local Arguments other_xpaths : simpl never.

Ltac run :=
  unfold bind, ret, lift, assign, asked, xpath_get, xpath_getall,
    bind, ret, asked;
  cbn [st_item st_queries fst snd].

Ltac in_other :=
  let q := fresh "q" in
  intros q; unfold other_xpaths; simpl; intuition (subst; auto).

Lemma fallback_price_run r st :
  fallback_price select r st
  = (inr tt,
     mkState
       (setitem price
          (match Spec.first_hit (price_results select r) with
           | Some p => VStr (PyStr.strip p)
           | None => VNone
           end)
          (st_item st))
       (st_queries st
        ++ firstn (Spec.attempts_made (price_results select r)) price_xpaths)).
Proof.
  unfold fallback_price, price_results, price_xpaths.
  generalize price_xpath_1 price_xpath_2 price_xpath_3 price_xpath_4
    price_xpath_5.
  intros q1 q2 q3 q4 q5.
  run. cbn [map Spec.first_hit Spec.attempts_made].
  destruct (hd_error (select (text r) q1)) as [[|a1 s1]|]; cbn;
  destruct (hd_error (select (text r) q2)) as [[|a2 s2]|]; cbn;
  destruct (hd_error (select (text r) q3)) as [[|a3 s3]|]; cbn;
  destruct (hd_error (select (text r) q4)) as [[|a4 s4]|]; cbn;
  destruct (hd_error (select (text r) q5)) as [[|a5 s5]|]; cbn;
  rewrite <- ?app_assoc; reflexivity.
Qed.

Lemma combine_nil_either {A B : Type} (l : list A) (l' : list B) :
  l = [] \/ l' = [] -> combine l l' = [].
Proof. intros [->| ->]; [reflexivity | now destruct l]. Qed.

Lemma fallback_specifications_run r st :
  exists d qs,
    fallback_specifications select r st
    = (inr tt, mkState (setitem specifications (VDict d) (st_item st))
                       (st_queries st ++ qs))
    /\ Spec.str_mapping (VDict d)
    /\ (select (text r) fallback_specs_xpath = [] ->
        select (text r) specs_xpath = []
        \/ select (text r) specs_values_xpath = [] -> d = [])
    /\ incl qs other_xpaths.
Proof.
  unfold fallback_specifications. run.
  destruct (dict_comp _ _ (combine _ _)) as [|kv d] eqn:D.
  - eexists _, [_; _; _]. split; [|split; [|split]].
    + cbn. rewrite <- !app_assoc. reflexivity.
    + eexists; split; [reflexivity|].
      apply (dict_comp_wf (fun v => exists s, v = VStr s)). eauto.
    + intros -> _. reflexivity.
    + intros q [<-|[<-|[<-|[]]]]; unfold other_xpaths; simpl; tauto.
  - eexists _, [_; _]. split; [|split; [|split]].
    + cbn. rewrite <- !app_assoc. reflexivity.
    + eexists; split; [reflexivity|]. rewrite <- D.
      apply (dict_comp_wf (fun v => exists s, v = VStr s)). eauto.
    + intros _ H. rewrite (combine_nil_either _ _ H) in D. discriminate.
    + intros q [<-|[<-|[]]]; unfold other_xpaths; simpl; tauto.
Qed.

Lemma fallback_description_run r st :
  exists v qs,
    fallback_description select r st
    = (inr tt, mkState (setitem description v (st_item st))
                       (st_queries st ++ qs))
    /\ (select (text r) description_xpath_1 = [] ->
        select (text r) description_xpath_2 = [] ->
        select (text r) description_xpath_3 = [] -> v = VStr "")
    /\ incl qs other_xpaths.
Proof.
  unfold fallback_description. run.
  destruct (no_description (select (text r) description_xpath_1)) eqn:N1; cbn.
  - destruct (no_description (select (text r) description_xpath_2)) eqn:N2; cbn.
    + eexists _, [_; _; _]. split; [|split].
      * rewrite <- !app_assoc. reflexivity.
      * intros _ _ ->. reflexivity.
      * intros q [<-|[<-|[<-|[]]]]; unfold other_xpaths; simpl; tauto.
    + eexists _, [_; _]. split; [|split].
      * rewrite <- !app_assoc. reflexivity.
      * intros _ E. rewrite E in N2. discriminate.
      * intros q [<-|[<-|[]]]; unfold other_xpaths; simpl; tauto.
  - rewrite N1. cbn. eexists _, [_]. split; [|split].
    + reflexivity.
    + intros E. rewrite E in N1. discriminate.
    + intros q [<-|[]]; unfold other_xpaths; simpl; tauto.
Qed.

(** The whole fallback: it never raises, it assigns nine fields in source
    order and leaves the others alone. *)
Lemma parse_fallback_run r st :
  exists cats specs desc disc qs1 qs2,
    _parse_fallback select r st
    = (inr tt,
       mkState
         (setitem sellers (VList [VStr "Target"])
         (setitem discount_price disc
         (setitem price
            (match Spec.first_hit (price_results select r) with
             | Some p => VStr (PyStr.strip p)
             | None => VNone
             end)
         (setitem description desc
         (setitem specifications (VDict specs)
         (setitem images (VList (map VStr (select (text r) images_xpath)))
         (setitem model_no (VStr (url_id (url r)))
         (setitem categories (VList cats)
         (setitem product_name
            (str_or_none (hd_error (select (text r) product_name_xpath)))
            (st_item st))))))))))
         (st_queries st ++ qs1
          ++ firstn (Spec.attempts_made (price_results select r)) price_xpaths
          ++ qs2))
    /\ (select (text r) categories_xpath = [] -> cats = [])
    /\ Spec.str_mapping (VDict specs)
    /\ (select (text r) fallback_specs_xpath = [] ->
        select (text r) specs_xpath = []
        \/ select (text r) specs_values_xpath = [] -> specs = [])
    /\ (select (text r) description_xpath_1 = [] ->
        select (text r) description_xpath_2 = [] ->
        select (text r) description_xpath_3 = [] -> desc = VStr "")
    /\ (select (text r) sale_price_xpath_1 = [] ->
        select (text r) sale_price_xpath_2 = [] -> disc = VNone)
    /\ incl qs1 other_xpaths /\ incl qs2 other_xpaths.
Proof.
  unfold _parse_fallback. run.
  match goal with
  | |- context [fallback_specifications select r ?s] =>
      destruct (fallback_specifications_run r s)
        as (specs & sq & -> & Hspecs & Hnil & Isq)
  end.
  match goal with
  | |- context [fallback_description select r ?s] =>
      destruct (fallback_description_run r s) as (desc & dq & -> & Hdesc & Idq)
  end.
  rewrite fallback_price_run. cbn [st_item st_queries].
  assert (Ipre : incl ([product_name_xpath; categories_xpath; images_xpath]
                       ++ sq ++ dq) other_xpaths).
  { apply incl_app; [|apply incl_app; assumption].
    intros q [<-|[<-|[<-|[]]]]; unfold other_xpaths; simpl; tauto. }
  assert (Cats : exists cats,
             match select (text r) categories_xpath with
             | [] => VList []
             | _ :: _ =>
                 VList (map (fun cat => VStr (PyStr.strip cat))
                          (filter
                             (fun cat => negb (PyStr.is_empty (PyStr.strip cat)))
                             (select (text r) categories_xpath)))
             end = VList cats
             /\ (select (text r) categories_xpath = [] -> cats = [])).
  { destruct (select (text r) categories_xpath) as [|c l].
    - exists []. auto.
    - eexists. split; [reflexivity | discriminate]. }
  destruct Cats as (cats & -> & Hcats).
  destruct (truthy_str (hd_error (select (text r) sale_price_xpath_1))) eqn:T1;
    cbn [st_item st_queries].
  - exists cats, specs, desc,
      (str_or_none
         (option_map PyStr.strip (hd_error (select (text r) sale_price_xpath_1)))),
      ([product_name_xpath; categories_xpath; images_xpath] ++ sq ++ dq)%list,
      [sale_price_xpath_1].
    rewrite T1.
    split; [|split; [|split; [|split; [|split; [|split; [|split]]]]]];
      try assumption.
    + do 2 f_equal. rewrite <- !app_assoc. reflexivity.
    + intros E. rewrite E in T1. discriminate.
    + intros q [<-|[]]; unfold other_xpaths; simpl; tauto.
  - exists cats, specs, desc,
      (if truthy_str (hd_error (select (text r) sale_price_xpath_2))
       then str_or_none
              (option_map PyStr.strip
                 (hd_error (select (text r) sale_price_xpath_2)))
       else VNone),
      ([product_name_xpath; categories_xpath; images_xpath] ++ sq ++ dq)%list,
      [sale_price_xpath_1; sale_price_xpath_2].
    split; [|split; [|split; [|split; [|split; [|split; [|split]]]]]];
      try assumption.
    + do 2 f_equal. rewrite <- !app_assoc. reflexivity.
    + intros _ E. rewrite E. reflexivity.
    + intros q [<-|[<-|[]]]; unfold other_xpaths; simpl; tauto.
Qed.

(** ** The paths of [parse] *)

(** Without a decoded blob, either the fallback runs or the exception of
    lines 47-48 leaves [parse]. *)
Lemma takes_fallback_blob r :
  blob select loads r = None ->
  takes_fallback select loads r = true
  \/ exists e, escapes select loads r = Some e.
Proof.
  unfold takes_fallback, escapes, blob.
  destruct (script_of select r) as [sd|]; [|now left].
  destruct (negb (PyStr.is_empty sd)); [|now left].
  destruct (decode_blob loads sd) as [e|d]; [|discriminate].
  intros _. destruct (caught e); [now left|right; now exists e].
Qed.

Lemma escapes_not_fallback r e :
  escapes select loads r = Some e ->
  takes_fallback select loads r = false /\ blob select loads r = None
  /\ caught e = false.
Proof.
  unfold takes_fallback, escapes, blob.
  destruct (script_of select r) as [sd|]; [|discriminate].
  destruct (negb (PyStr.is_empty sd)); [|discriminate].
  destruct (decode_blob loads sd) as [e'|d]; [|discriminate].
  destruct (caught e') eqn:C; [discriminate|].
  intros [= <-]. auto.
Qed.

Lemma fallback_not_blob r :
  takes_fallback select loads r = true -> blob select loads r = None.
Proof.
  unfold takes_fallback, blob.
  destruct (script_of select r) as [sd|]; [|reflexivity].
  destruct (negb (PyStr.is_empty sd)); [|reflexivity].
  destruct (decode_blob loads sd) as [e|d]; [reflexivity|discriminate].
Qed.

(** An exception of lines 47-48 that the [except] clause does not name
    leaves [parse] at once: the item holds [tcin_id] only and no further
    query is evaluated. *)
Lemma run_parse_escapes self r e :
  escapes select loads r = Some e ->
  run_parse select loads self r = (inl e, entry_state r).
Proof.
  unfold escapes, script_of, run_parse, parse, entry_state. run.
  destruct (hd_error (select (text r) initial_state_xpath)) as [sd|];
    [|discriminate].
  destruct (negb (PyStr.is_empty sd)); [|discriminate].
  unfold try_except, parse_json. run.
  destruct (decode_blob loads sd) as [e'|d]; [|discriminate].
  destruct (caught e') eqn:C; [discriminate|].
  intros [= <-]. reflexivity.
Qed.

Lemma run_parse_fallback self r :
  takes_fallback select loads r = true ->
  run_parse select loads self r = _parse_fallback select r (entry_state r).
Proof.
  unfold takes_fallback, script_of, run_parse, parse, entry_state. run.
  destruct (hd_error (select (text r) initial_state_xpath)) as [sd|];
    [|reflexivity].
  destruct (negb (PyStr.is_empty sd)); [|reflexivity].
  unfold try_except, parse_json. run.
  destruct (decode_blob loads sd) as [e|d]; [|discriminate].
  now intros ->.
Qed.

Lemma roa_bind {A B : Type} (m : M A) (k : A -> M B) :
  raises_only_attribute m -> (forall a, raises_only_attribute (k a)) ->
  raises_only_attribute (bind m k).
Proof.
  intros Hm Hk st e st'. unfold bind.
  destruct (m st) as [[e0|a] st0] eqn:E.
  - intros [= <- <-]. eapply Hm, E.
  - apply Hk.
Qed.

Lemma roa_assign f v : raises_only_attribute (assign f v).
Proof. intros st e st'. discriminate. Qed.

Lemma roa_lift {A : Type} (r : result A) :
  (forall e, r = inl e -> e = AttributeError) ->
  raises_only_attribute (lift r).
Proof. intros H st e st' [= -> _]. now apply H. Qed.

Lemma get_default_raises o k d e :
  get_default o k d = inl e -> e = AttributeError.
Proof. destruct o; simpl; congruence. Qed.

Lemma product_section_raises data k e :
  product_section data k = inl e -> e = AttributeError.
Proof.
  unfold product_section.
  destruct (get_default data "product" (VDict [])) eqn:G.
  - intros [= <-]. eapply get_default_raises, G.
  - apply get_default_raises.
Qed.

Lemma json_price_raises pd e : json_price pd = inl e -> e = AttributeError.
Proof.
  unfold json_price, get, get_default.
  destruct pd; try congruence.
  destruct (truthy _); [discriminate|].
  destruct (truthy _); discriminate.
Qed.

Lemma json_discount_price_raises pd e :
  json_discount_price pd = inl e -> e = AttributeError.
Proof.
  unfold json_discount_price, get, get_default.
  destruct pd; try congruence.
  destruct (py_ne _ _); discriminate.
Qed.

(** Whatever leaves lines 49-61 is an [AttributeError], which the [except]
    clause does not name. *)
Lemma fill_from_json_raises data : raises_only_attribute (fill_from_json data).
Proof.
  unfold fill_from_json.
  repeat first
    [ apply roa_assign
    | apply roa_bind; [|intros ?]
    | apply roa_lift; intros ?;
      first [ apply product_section_raises | apply get_default_raises
            | apply json_price_raises | apply json_discount_price_raises ] ].
Qed.

Lemma keeps_bind f {A B : Type} (m : M A) (k : A -> M B) :
  keeps_field f m -> (forall a, keeps_field f (k a)) ->
  keeps_field f (bind m k).
Proof.
  intros Hm Hk st r st'. unfold bind.
  destruct (m st) as [[e|a] st0] eqn:E.
  - intros [= <- <-]. eapply Hm, E.
  - intros K. rewrite (Hk a _ _ _ K). eapply Hm, E.
Qed.

Lemma keeps_lift f {A : Type} (r : result A) : keeps_field f (lift r).
Proof. intros st r' st' [= _ <-]. reflexivity. Qed.

Lemma keeps_assign f g v : field_eqb f g = false -> keeps_field f (assign g v).
Proof.
  intros N st r st' [= _ <-]. cbn [st_item]. unfold setitem. now rewrite N.
Qed.

(** Lines 49-61 never touch [tcin_id], however far they get. *)
Lemma fill_from_json_keeps_tcin_id data :
  keeps_field tcin_id (fill_from_json data).
Proof.
  unfold fill_from_json.
  repeat first
    [ apply keeps_assign; reflexivity
    | apply keeps_bind; [|intros ?]
    | apply keeps_lift ].
Qed.

Lemma run_parse_json self r data :
  blob select loads r = Some data ->
  run_parse select loads self r = fill_from_json data (entry_state r).
Proof.
  unfold blob, script_of, run_parse, parse, entry_state. run.
  destruct (hd_error (select (text r) initial_state_xpath)) as [sd|];
    [|discriminate].
  destruct (negb (PyStr.is_empty sd)); [|discriminate].
  unfold try_except, parse_json. run.
  destruct (decode_blob loads sd) as [e|d]; [discriminate|].
  intros [= ->].
  destruct (fill_from_json data _) as [[e|[]] st'] eqn:F; [|reflexivity].
  apply fill_from_json_raises in F. subst e. reflexivity.
Qed.

(** With both sections of the blob dicts, lines 49-61 assign ten fields. *)
Lemma fill_from_json_dicts data pd pr st :
  product_section data "details" = inr (VDict pd) ->
  product_section data "price" = inr (VDict pr) ->
  exists p d,
    json_price (VDict pr) = inr p
    /\ json_discount_price (VDict pr) = inr d
    /\ fill_from_json data st
       = (inr tt,
          mkState
            (setitem sellers (VList [VStr "Target"])
            (setitem discount_price d
            (setitem price p
            (setitem variant (dict_get pd "variant" (VStr ""))
            (setitem description (dict_get pd "description" (VStr ""))
            (setitem specifications (dict_get pd "specifications" (VList []))
            (setitem images (dict_get pd "images" (VList []))
            (setitem model_no (dict_get pd "modelNumber" VNone)
            (setitem categories (dict_get pd "categories" (VList []))
            (setitem product_name (dict_get pd "title" VNone)
               (st_item st)))))))))))
            (st_queries st)).
Proof.
  intros D P. unfold fill_from_json. run. rewrite D, P.
  unfold json_price, json_discount_price, get, get_default.
  cbn [st_item st_queries].
  destruct (truthy (dict_get pr "current_retail" VNone));
    [|destruct (truthy (dict_get pr "formatted_current_price" VNone))];
    cbn [st_item st_queries];
    destruct (py_ne _ _); eexists _, _; repeat split; reflexivity.
Qed.

(** Lines 49-61 only complete when both sections are dicts. *)
Lemma fill_from_json_ok data st st' :
  fill_from_json data st = (inr tt, st') ->
  exists pd pr,
    product_section data "details" = inr (VDict pd)
    /\ product_section data "price" = inr (VDict pr).
Proof.
  unfold fill_from_json. run.
  destruct (product_section data "details") as [e|pd]; [discriminate|].
  destruct (product_section data "price") as [e|pr]; [discriminate|].
  destruct pd; try discriminate.
  destruct pr; cbn; try discriminate.
  eauto.
Qed.

End Properties.

End SpiderFacts.

(** * The claims of the specification *)

Import TargetSpider SpiderFacts StrFacts.

(** ** The URL identifier *)

Lemma marker_unbordered : Spec.unbordered "/-/A-" = true.
Proof. reflexivity. Qed.

Lemma url_id_last_occurrence (u pre post : string) :
  Spec.last_occurrence "/-/A-" u pre post ->
  url_id u = Spec.before_first "#" post.
Proof.
  intros L. unfold url_id, PyStr.split at 2.
  rewrite (split_fuel_last "/-/A-" marker_unbordered ltac:(simpl; lia)
             (length u) u pre post (le_n _) L).
  apply split_char_head.
Qed.

Lemma url_id_without_marker (u : string) :
  ~ Spec.occurs "/-/A-" u -> url_id u = Spec.before_first "#" u.
Proof.
  intros N. unfold url_id, PyStr.split at 2.
  rewrite (split_fuel_absent _ _ _ N). apply split_char_head.
Qed.

(** A decidable test for the last occurrence *)
Lemma last_occurrence_by_find (sep s pre post : string) :
  s = pre ++ sep ++ post ->
  PyStr.find sep (PyStr.drop 1 (sep ++ post)) = None ->
  Spec.last_occurrence sep s pre post.
Proof.
  intros E F. split; [assumption|].
  intros pre' post' E'.
  destruct (Nat.le_gt_cases (length pre') (length pre)) as [|G];
    [assumption | exfalso].
  rewrite E in E'.
  destruct (append_eq_append _ _ _ _ E' ltac:(lia)) as (x & -> & Ex).
  rewrite length_append in G.
  destruct x as [|c x]; [simpl in G; lia|].
  apply (find_none _ _ F). exists x, post'. rewrite Ex. reflexivity.
Qed.

Section Claims.
Variable select : string -> string -> list string.
Variable loads : string -> result value.

(** What [parse] yields on the fallback path *)
Lemma yielded_fallback self r :
  takes_fallback select loads r = true ->
  exists cats specs desc disc qs1 qs2,
    yielded select loads self r
    = inr (setitem sellers (VList [VStr "Target"])
          (setitem discount_price disc
          (setitem price
             (match Spec.first_hit (price_results select r) with
              | Some p => VStr (PyStr.strip p)
              | None => VNone
              end)
          (setitem description desc
          (setitem specifications (VDict specs)
          (setitem images (VList (map VStr (select (text r) images_xpath)))
          (setitem model_no (VStr (url_id (url r)))
          (setitem categories (VList cats)
          (setitem product_name
             (str_or_none (hd_error (select (text r) product_name_xpath)))
          (setitem tcin_id (VStr (url_id (url r))) TargetItem))))))))))
    /\ queries select loads self r
       = ((initial_state_xpath :: qs1)
          ++ firstn (Spec.attempts_made (price_results select r)) price_xpaths
          ++ qs2)%list
    /\ (select (text r) categories_xpath = [] -> cats = [])
    /\ Spec.str_mapping (VDict specs)
    /\ (select (text r) fallback_specs_xpath = [] ->
        select (text r) specs_xpath = []
        \/ select (text r) specs_values_xpath = [] -> specs = [])
    /\ (select (text r) description_xpath_1 = [] ->
        select (text r) description_xpath_2 = [] ->
        select (text r) description_xpath_3 = [] -> desc = VStr "")
    /\ (select (text r) sale_price_xpath_1 = [] ->
        select (text r) sale_price_xpath_2 = [] -> disc = VNone)
    /\ incl qs1 other_xpaths /\ incl qs2 other_xpaths.
Proof.
  intros F. unfold yielded, queries.
  rewrite (run_parse_fallback select loads self r F).
  destruct (parse_fallback_run select r (entry_state r))
    as (cats & specs & desc & disc & qs1 & qs2 & -> & H).
  exists cats, specs, desc, disc, qs1, qs2.
  split; [reflexivity|]. split; [reflexivity | exact H].
Qed.

(** What [parse] yields on the JSON path *)
Lemma yielded_json self r data it :
  blob select loads r = Some data ->
  yielded select loads self r = inr it ->
  exists pd pr p d,
    product_section data "details" = inr (VDict pd)
    /\ product_section data "price" = inr (VDict pr)
    /\ json_price (VDict pr) = inr p
    /\ json_discount_price (VDict pr) = inr d
    /\ it = setitem sellers (VList [VStr "Target"])
            (setitem discount_price d
            (setitem price p
            (setitem variant (dict_get pd "variant" (VStr ""))
            (setitem description (dict_get pd "description" (VStr ""))
            (setitem specifications (dict_get pd "specifications" (VList []))
            (setitem images (dict_get pd "images" (VList []))
            (setitem model_no (dict_get pd "modelNumber" VNone)
            (setitem categories (dict_get pd "categories" (VList []))
            (setitem product_name (dict_get pd "title" VNone)
            (setitem tcin_id (VStr (url_id (url r))) TargetItem)))))))))).
Proof.
  intros B. unfold yielded.
  rewrite (run_parse_json select loads self r data B).
  destruct (fill_from_json data (entry_state r)) as [[e|[]] st'] eqn:E;
    [discriminate|].
  destruct (fill_from_json_ok _ _ _ E) as (pd & pr & D & P).
  destruct (fill_from_json_dicts data pd pr (entry_state r) D P)
    as (p & d & Hp & Hd & E').
  rewrite E' in E. injection E as <-.
  intros [= <-]. exists pd, pr, p, d. repeat split; assumption.
Qed.

(** Whatever [parse] goes on to do, the item carries the identifier cut
    out of the URL. *)
Lemma run_parse_tcin_id self r :
  st_item (snd (run_parse select loads self r)) tcin_id
  = Some (VStr (url_id (url r))).
Proof.
  destruct (takes_fallback select loads r) eqn:F.
  - rewrite (run_parse_fallback select loads self r F).
    destruct (parse_fallback_run select r (entry_state r))
      as (cats & specs & desc & disc & qs1 & qs2 & -> & _).
    reflexivity.
  - destruct (blob select loads r) as [data|] eqn:B.
    2: { destruct (takes_fallback_blob select loads r B) as [F'|(e & X)];
           [congruence|].
         rewrite (run_parse_escapes select loads self r e X). reflexivity. }
    rewrite (run_parse_json select loads self r data B).
    destruct (fill_from_json data (entry_state r)) as [res st'] eqn:E.
    cbn [snd].
    now rewrite (fill_from_json_keeps_tcin_id data _ _ _ E).
Qed.

(** C6: for every response, [tcin_id] is the part of the response URL
    behind the last occurrence of the marker [/-/A-], truncated at the
    first [#]: it is assigned before either path runs and stays in the item
    whatever [parse] goes on to do, so every item [parse] yields, by the
    JSON path or by the fallback, carries it. *)
Theorem tcin_id_from_url self r pre post :
  Spec.last_occurrence "/-/A-" (url r) pre post ->
  st_item (entry_state r) tcin_id
  = Some (VStr (Spec.before_first "#" post))
  /\ st_item (snd (run_parse select loads self r)) tcin_id
     = Some (VStr (Spec.before_first "#" post))
  /\ forall it,
       yielded select loads self r = inr it ->
       it tcin_id = Some (VStr (Spec.before_first "#" post)).
Proof.
  intros L. rewrite <- (url_id_last_occurrence _ _ _ L).
  split; [reflexivity|].
  pose proof (run_parse_tcin_id self r) as T.
  split; [exact T|].
  intros it. unfold yielded.
  destruct (run_parse select loads self r) as [[e|u] st]; [discriminate|].
  intros [= <-]. exact T.
Qed.

(** C10: on the HTML-fallback path the yielded item has [model_no] equal
    to [tcin_id]: both are the identifier cut out of the URL, not anything
    selected from the page. *)
Theorem fallback_model_no_is_tcin_id self r :
  takes_fallback select loads r = true ->
  exists it,
    yielded select loads self r = inr it
    /\ it model_no = it tcin_id
    /\ it model_no = Some (VStr (url_id (url r))).
Proof.
  intros F.
  destruct (yielded_fallback self r F)
    as (cats & specs & desc & disc & qs1 & qs2 & E & _).
  eexists. split; [exact E|]. split; reflexivity.
Qed.

Lemma price_and_other_disjoint q :
  In q price_xpaths -> ~ In q other_xpaths.
Proof.
  assert (T : forallb (fun p => negb (existsb (String.eqb p) other_xpaths))
                price_xpaths = true) by (vm_compute; reflexivity).
  rewrite forallb_forall in T. intros I O.
  specialize (T q I). apply negb_true_iff in T.
  assert (existsb (String.eqb q) other_xpaths = true).
  { apply existsb_exists. exists q. split; [assumption | apply String.eqb_refl]. }
  congruence.
Qed.

(** C8: on the HTML-fallback path the price comes from the five price
    attempts in their fixed order: the attempts evaluated are exactly those
    up to and including the first one that yields a value (all five when
    none does), no other query of the run is a price query, and [price] is
    the stripped result of that first attempt, or [None] when all five
    yield nothing. *)
Theorem fallback_price_attempts self r :
  takes_fallback select loads r = true ->
  exists it before after,
    yielded select loads self r = inr it
    /\ it price
       = Some (match Spec.first_hit (price_results select r) with
               | Some p => VStr (PyStr.strip p)
               | None => VNone
               end)
    /\ queries select loads self r
       = (before
          ++ firstn (Spec.attempts_made (price_results select r)) price_xpaths
          ++ after)%list
    /\ forall q, In q price_xpaths -> ~ In q before /\ ~ In q after.
Proof.
  intros F.
  destruct (yielded_fallback self r F)
    as (cats & specs & desc & disc & qs1 & qs2 & E & Q & _ & _ & _ & _ & _
        & I1 & I2).
  eexists. exists (initial_state_xpath :: qs1), qs2.
  split; [exact E|]. split; [reflexivity|]. split; [exact Q|].
  intros q Hq. pose proof (price_and_other_disjoint q Hq) as N.
  split; intros I; apply N.
  - destruct I as [<-|I]; [left; reflexivity | apply I1, I].
  - apply I2, I.
Qed.

Lemma first_hit_all_missing r :
  (forall q, In q price_xpaths -> select (text r) q = []) ->
  Spec.first_hit (price_results select r) = None.
Proof.
  intros H. unfold price_results.
  induction price_xpaths as [|q l IH]; [reflexivity|].
  cbn [map Spec.first_hit]. rewrite (H q (or_introl eq_refl)). cbn.
  apply IH. intros q' I. apply H. now right.
Qed.

(** C4: on the HTML-fallback path [parse] always yields an item, and a
    field whose selectors match nothing is null or empty: [None] for the
    product name, the price and the discount price, [[]] for the categories
    and the images, [{}] for the specifications and [''] for the
    description. *)
Theorem fallback_missing_selectors self r :
  takes_fallback select loads r = true ->
  exists it,
    yielded select loads self r = inr it
    /\ (select (text r) product_name_xpath = [] ->
        it product_name = Some VNone)
    /\ (select (text r) categories_xpath = [] ->
        it categories = Some (VList []))
    /\ (select (text r) images_xpath = [] -> it images = Some (VList []))
    /\ (select (text r) fallback_specs_xpath = [] ->
        select (text r) specs_xpath = []
        \/ select (text r) specs_values_xpath = [] ->
        it specifications = Some (VDict []))
    /\ (select (text r) description_xpath_1 = [] ->
        select (text r) description_xpath_2 = [] ->
        select (text r) description_xpath_3 = [] ->
        it description = Some (VStr ""))
    /\ ((forall q, In q price_xpaths -> select (text r) q = []) ->
        it price = Some VNone)
    /\ (select (text r) sale_price_xpath_1 = [] ->
        select (text r) sale_price_xpath_2 = [] ->
        it discount_price = Some VNone).
Proof.
  intros F.
  destruct (yielded_fallback self r F)
    as (cats & specs & desc & disc & qs1 & qs2 & E & _ & Hc & _ & Hs & Hd
        & Hp & _).
  eexists. split; [exact E|].
  cbv [setitem field_eqb].
  repeat split.
  - intros ->. reflexivity.
  - intros H. now rewrite (Hc H).
  - intros ->. reflexivity.
  - intros H1 H2. now rewrite (Hs H1 H2).
  - intros H1 H2 H3. now rewrite (Hd H1 H2 H3).
  - intros H. now rewrite (first_hit_all_missing r H).
  - intros H1 H2. now rewrite (Hp H1 H2).
Qed.

(** C7: on the JSON path the price is chosen among the fields of the price
    object in a fixed priority order: [current_retail] when it is present
    and truthy, otherwise [formatted_current_price] when that is, otherwise
    [price]; it is null only when all three are absent or falsy. *)
Theorem json_price_priority self r data it :
  blob select loads r = Some data ->
  yielded select loads self r = inr it ->
  exists pr,
    product_section data "price" = inr (VDict pr)
    /\ let current_retail := dict_get pr "current_retail" VNone in
       let formatted := dict_get pr "formatted_current_price" VNone in
       let plain := dict_get pr "price" VNone in
       (truthy current_retail = true -> it price = Some current_retail)
       /\ (truthy current_retail = false -> truthy formatted = true ->
           it price = Some formatted)
       /\ (truthy current_retail = false -> truthy formatted = false ->
           it price = Some plain)
       /\ (it price = Some VNone ->
           truthy current_retail = false /\ truthy formatted = false
           /\ truthy plain = false).
Proof.
  intros B Y.
  destruct (yielded_json self r data it B Y)
    as (pd & pr & p & d & _ & P & Hp & _ & ->).
  exists pr. split; [exact P|].
  cbv [setitem field_eqb]. cbv zeta.
  unfold json_price, get, get_default in Hp.
  destruct (truthy (dict_get pr "current_retail" VNone)) eqn:T1;
    [|destruct (truthy (dict_get pr "formatted_current_price" VNone)) eqn:T2];
    injection Hp as <-;
    (split; [|split; [|split]]);
    try discriminate; try (intros; reflexivity).
  - intros [= N]. rewrite N in T1. discriminate.
  - intros [= N]. rewrite N in T2. discriminate.
  - intros [= ->]. repeat split.
Qed.

(** C1, as amended: on the JSON path a non-null [discount_price] is the
    price object's [current_retail_min] and differs (Python [!=]) from its
    [current_retail]; hence it differs from the item's [price] whenever
    [current_retail] is truthy, the case in which [price] is
    [current_retail]. *)
Theorem json_discount_differs_from_current_retail self r data it d :
  blob select loads r = Some data ->
  yielded select loads self r = inr it ->
  it discount_price = Some d -> d <> VNone ->
  exists pr,
    product_section data "price" = inr (VDict pr)
    /\ d = dict_get pr "current_retail_min" VNone
    /\ py_ne d (dict_get pr "current_retail" VNone) = true
    /\ (truthy (dict_get pr "current_retail" VNone) = true ->
        exists p, it price = Some p /\ py_ne d p = true).
Proof.
  intros B Y.
  destruct (yielded_json self r data it B Y)
    as (pd & pr & p & d' & _ & P & Hp & Hd & ->).
  cbv [setitem field_eqb]. intros [= <-] N.
  exists pr. split; [exact P|].
  unfold json_discount_price, get, get_default in Hd.
  destruct (py_ne _ _) eqn:Ne; injection Hd as <-; [|congruence].
  repeat split; [assumption|].
  intros T. exists (dict_get pr "current_retail" VNone).
  split; [|assumption].
  unfold json_price, get, get_default in Hp. rewrite T in Hp.
  congruence.
Qed.

(** C2, as amended: when the page has the [window.__INITIAL_STATE__]
    script and the script text lacks the assignment marker
    [window.__INITIAL_STATE__ = ] or the JSON text behind it is malformed
    ([json.loads] raises [JSONDecodeError]), [parse] runs the HTML fallback
    and yields an item; no exception leaves it. *)
Theorem malformed_json_falls_back self r script_data :
  script_of select r = Some script_data -> script_data <> "" ->
  blob_text script_data = inl IndexError
  \/ (exists json_data,
        blob_text script_data = inr json_data
        /\ loads json_data = inl JSONDecodeError) ->
  exists it,
    yielded select loads self r = inr it
    /\ run_parse select loads self r
       = _parse_fallback select r (entry_state r).
Proof.
  intros S NE H.
  assert (F : takes_fallback select loads r = true).
  { unfold takes_fallback, decode_blob, json_loads. rewrite S.
    destruct script_data; [congruence|]. cbn [PyStr.is_empty negb].
    destruct H as [->|(t & -> & ->)]; reflexivity. }
  destruct (yielded_fallback self r F)
    as (cats & specs & desc & disc & qs1 & qs2 & E & _).
  eexists. split; [exact E|].
  apply run_parse_fallback, F.
Qed.


End Claims.

(** C5, as amended: constructing the spider raises [ValueError] if and
    only if the [url] argument is missing or empty; with a non-empty URL
    the construction succeeds and [start_urls] is the one-element list of
    that URL. *)
Theorem init_raises_iff_url_missing_or_empty splash url :
  (__init__ splash url = inl ValueError <-> url = None \/ url = Some "")
  /\ (forall u, url = Some u -> u <> "" ->
        exists self, __init__ splash url = inr self /\ start_urls self = [u]).
Proof.
  split; [split|].
  - destruct url as [[|c u]|]; cbn; auto; discriminate.
  - intros [->| ->]; reflexivity.
  - intros u -> N. destruct u as [|c u]; [congruence|].
    eexists; split; reflexivity.
Qed.

(** ** The properties on the fixtures *)

Import Fixtures.

(** Runs [parse] on a fixture and names the item it yields. *)
Ltac yields it Y :=
  match goal with
  | |- context [yielded ?sel ?lo ?sp ?r] =>
      let e := fresh "e" in
      let Y' := fresh "Y" in
      destruct (yielded sel lo sp r) as [e|it] eqn:Y;
      [ vm_compute in Y; discriminate
      | pose proof Y as Y'; vm_compute in Y'; injection Y' as <- ]
  end.

Lemma tcin_id_from_url_witness :
  exists it,
    yielded Fixtures.select Fixtures.loads spider (response_of sale_page) = inr it
    /\ it tcin_id = Some (VStr "92469343").
Proof.
  yields it Y. eexists. split; [reflexivity|].
  assert (L : Spec.last_occurrence "/-/A-" (url (response_of sale_page))
                product_url_head product_url_tail)
    by (apply last_occurrence_by_find; vm_compute; reflexivity).
  apply (proj2 (proj2 (tcin_id_from_url Fixtures.select Fixtures.loads spider
                         (response_of sale_page)
                         product_url_head product_url_tail L)) _ Y).
Defined.

Lemma fallback_model_no_is_tcin_id_witness :
  exists it,
    yielded Fixtures.select Fixtures.loads spider (response_of bare_page) = inr it
    /\ it model_no = it tcin_id
    /\ it model_no = Some (VStr "92469343").
Proof.
  assert (F : takes_fallback Fixtures.select Fixtures.loads
                (response_of bare_page) = true) by (vm_compute; reflexivity).
  destruct (fallback_model_no_is_tcin_id Fixtures.select Fixtures.loads spider
              (response_of bare_page) F) as (it & Y & H1 & H2).
  exists it. split; [exact Y|]. split; [exact H1|].
  rewrite H2. vm_compute. reflexivity.
Defined.

Lemma fallback_price_attempts_witness :
  exists it before after,
    yielded Fixtures.select Fixtures.loads spider
      (response_of generic_price_page) = inr it
    /\ it price = Some (VStr "$7")
    /\ queries Fixtures.select Fixtures.loads spider
         (response_of generic_price_page)
       = (before
          ++ [price_xpath_1; price_xpath_2; price_xpath_3; price_xpath_4]
          ++ after)%list
    /\ forall q, In q price_xpaths -> ~ In q before /\ ~ In q after.
Proof.
  assert (F : takes_fallback Fixtures.select Fixtures.loads
                (response_of generic_price_page) = true)
    by (vm_compute; reflexivity).
  destruct (fallback_price_attempts Fixtures.select Fixtures.loads spider
              (response_of generic_price_page) F)
    as (it & before & after & Y & P & Q & D).
  exists it, before, after.
  split; [exact Y|]. split; [|split; [|exact D]].
  - rewrite P. vm_compute. reflexivity.
  - rewrite Q. reflexivity.
Defined.

Lemma fallback_missing_selectors_witness :
  exists it,
    yielded Fixtures.select Fixtures.loads spider (response_of bare_page) = inr it
    /\ it product_name = Some VNone
    /\ it categories = Some (VList [])
    /\ it images = Some (VList [])
    /\ it specifications = Some (VDict [])
    /\ it description = Some (VStr "")
    /\ it price = Some VNone
    /\ it discount_price = Some VNone.
Proof.
  assert (F : takes_fallback Fixtures.select Fixtures.loads
                (response_of bare_page) = true) by (vm_compute; reflexivity).
  destruct (fallback_missing_selectors Fixtures.select Fixtures.loads spider
              (response_of bare_page) F)
    as (it & Y & Hn & Hc & Hi & Hs & Hd & Hp & Hx).
  exists it. split; [exact Y|].
  repeat split.
  - apply Hn. reflexivity.
  - apply Hc. reflexivity.
  - apply Hi. reflexivity.
  - apply Hs; [reflexivity | left; reflexivity].
  - apply Hd; reflexivity.
  - apply Hp. intros q _. reflexivity.
  - apply Hx; reflexivity.
Defined.

Lemma json_price_priority_witness :
  exists it,
    yielded Fixtures.select Fixtures.loads spider
      (response_of (blob_page json_reduced)) = inr it
    /\ it price = Some (VInt 10).
Proof.
  yields it Y. eexists. split; [reflexivity|].
  assert (B : blob Fixtures.select Fixtures.loads
                (response_of (blob_page json_reduced)) = Some value_reduced)
    by (vm_compute; reflexivity).
  destruct (json_price_priority Fixtures.select Fixtures.loads spider
              (response_of (blob_page json_reduced)) value_reduced _ B Y)
    as (pr & P & H).
  vm_compute in P. injection P as <-.
  cbv zeta in H. destruct H as (H1 & _).
  apply H1. reflexivity.
Defined.

Lemma json_discount_differs_from_current_retail_witness :
  exists it,
    yielded Fixtures.select Fixtures.loads spider
      (response_of (blob_page json_reduced)) = inr it
    /\ it discount_price = Some (VInt 8)
    /\ exists p, it price = Some p /\ py_ne (VInt 8) p = true.
Proof.
  yields it Y. eexists. split; [reflexivity|]. split; [reflexivity|].
  assert (B : blob Fixtures.select Fixtures.loads
                (response_of (blob_page json_reduced)) = Some value_reduced)
    by (vm_compute; reflexivity).
  destruct (json_discount_differs_from_current_retail
              Fixtures.select Fixtures.loads spider
              (response_of (blob_page json_reduced)) value_reduced _ (VInt 8)
              B Y eq_refl)
    as (pr & P & _ & _ & H).
  - discriminate.
  - vm_compute in P. injection P as <-. apply H. reflexivity.
Defined.

Lemma malformed_json_falls_back_witness :
  exists it,
    yielded Fixtures.select Fixtures.loads spider
      (response_of (blob_page json_malformed)) = inr it
    /\ run_parse Fixtures.select Fixtures.loads spider
         (response_of (blob_page json_malformed))
       = _parse_fallback Fixtures.select
           (response_of (blob_page json_malformed))
           (entry_state (response_of (blob_page json_malformed))).
Proof.
  apply (malformed_json_falls_back Fixtures.select Fixtures.loads spider
           (response_of (blob_page json_malformed))
           (script_text json_malformed)).
  - vm_compute. reflexivity.
  - discriminate.
  - right. exists json_malformed. split; vm_compute; reflexivity.
Defined.


Lemma init_with_url_witness :
  exists self,
    __init__ true (Some product_url) = inr self
    /\ start_urls self = [product_url].
Proof.
  apply (proj2 (init_raises_iff_url_missing_or_empty true (Some product_url))
           product_url eq_refl).
  discriminate.
Defined.

(** ** Where the specification says more than the code does *)

(** Against C1 as stated: a blob whose price object has no
    [current_retail], and a page without the script whose sale price equals
    its regular price: in both the item carries a non-null [discount_price]
    equal to its [price]. *)
Lemma discount_equal_to_price :
  (exists it,
     yielded Fixtures.select Fixtures.loads spider
       (response_of (blob_page json_no_retail)) = inr it
     /\ it discount_price = Some (VInt 5) /\ it price = Some (VInt 5))
  /\ (exists it,
        yielded Fixtures.select Fixtures.loads spider (response_of sale_page)
        = inr it
        /\ it discount_price = Some (VStr "$5")
        /\ it price = Some (VStr "$5")).
Proof.
  split; yields it Y; eexists; repeat split; reflexivity.
Qed.

(** Against C2 as stated: a blob that is well-formed JSON but not an
    object makes [parse] raise [AttributeError], and no item is yielded; a
    blob that is an empty object is mapped to null fields without the
    fallback being run, although the page has price markup the fallback
    would have read. *)
Lemma unmapped_json_not_recovered :
  (script_of Fixtures.select (response_of (blob_page json_array))
   = Some (script_text json_array)
   /\ Fixtures.loads json_array = inr value_array
   /\ yielded Fixtures.select Fixtures.loads spider
        (response_of (blob_page json_array)) = inl AttributeError)
  /\ (Fixtures.select priced_blob_page price_xpath_1 = ["$5"]
      /\ queries Fixtures.select Fixtures.loads spider
           (response_of priced_blob_page) = [initial_state_xpath]
      /\ exists it,
           yielded Fixtures.select Fixtures.loads spider
             (response_of priced_blob_page) = inr it
           /\ it price = Some VNone).
Proof.
  split; [repeat split; vm_compute; reflexivity|].
  split; [vm_compute; reflexivity|].
  split; [vm_compute; reflexivity|].
  yields it Y. eexists. split; reflexivity.
Qed.


(** Against C5 as stated: an empty [url] argument is refused like a
    missing one. *)
Lemma init_raises_on_empty_url :
  __init__ true (Some "") = inl ValueError.
Proof. reflexivity. Qed.

(** * Further properties of the spider *)

Module MoreStrFacts.

Import PyStr StrFacts Closed.

(** ** Stripping *)

Lemma lstrip_by_first (p : ascii -> bool) (s : string) (c : ascii) :
  first_char (lstrip_by p s) = Some c -> p c = false.
Proof.
  induction s as [|a s IH]; simpl; [discriminate|].
  destruct (p a) eqn:P; [exact IH|].
  simpl. intros [= <-]. exact P.
Qed.

Lemma rstrip_by_last (p : ascii -> bool) (s : string) (c : ascii) :
  last_char (rstrip_by p s) = Some c -> p c = false.
Proof.
  induction s as [|a s IH]; simpl; [discriminate|].
  destruct (rstrip_by p s) as [|b t] eqn:R; simpl.
  - destruct (p a) eqn:P; simpl; [discriminate|].
    intros [= <-]. exact P.
  - exact IH.
Qed.

Lemma rstrip_by_first (p : ascii -> bool) (s : string) (c : ascii) :
  first_char (rstrip_by p s) = Some c -> first_char s = Some c.
Proof.
  destruct s as [|a s]; simpl; [discriminate|].
  destruct (is_empty (rstrip_by p s) && p a); simpl; [discriminate|].
  auto.
Qed.

(** What [strip] returns has no white space at either end. *)
Lemma strip_no_outer_space (s : string) : no_outer_space (strip s).
Proof.
  unfold strip. split; intros c H.
  - apply rstrip_by_first in H. eapply lstrip_by_first, H.
  - eapply rstrip_by_last, H.
Qed.

Lemma lstrip_by_fixed (p : ascii -> bool) (s : string) :
  (forall c, first_char s = Some c -> p c = false) -> lstrip_by p s = s.
Proof.
  destruct s as [|a s]; simpl; [reflexivity|].
  intros H. now rewrite (H a eq_refl).
Qed.

Lemma rstrip_by_fixed (p : ascii -> bool) (s : string) :
  (forall c, last_char s = Some c -> p c = false) -> rstrip_by p s = s.
Proof.
  induction s as [|a s IH]; simpl; [reflexivity|].
  intros H. destruct s as [|b s].
  - simpl. now rewrite (H a eq_refl).
  - rewrite (IH H). reflexivity.
Qed.

Lemma strip_fixed (s : string) : no_outer_space s -> strip s = s.
Proof.
  intros [F L]. unfold strip.
  rewrite (lstrip_by_fixed _ _ F). apply rstrip_by_fixed, L.
Qed.

Lemma strip_idempotent (s : string) : strip (strip s) = strip s.
Proof. apply strip_fixed, strip_no_outer_space. Qed.

(** ** Splitting *)

Lemma occurs_prefix (sep a b : string) :
  Spec.occurs sep a -> Spec.occurs sep (a ++ b).
Proof.
  intros (x & y & ->). exists x, (y ++ b). now rewrite !append_assoc.
Qed.

Lemma length_occurs (sep s : string) :
  Spec.occurs sep s -> length sep <= length s.
Proof. intros (x & y & ->). rewrite !length_append. lia. Qed.

(** The piece in front of the leftmost occurrence holds no occurrence. *)
Lemma find_some_clean (sep s : string) (i : nat) :
  0 < length sep -> find sep s = Some i ->
  exists pre post,
    s = pre ++ sep ++ post /\ length pre = i /\ ~ Spec.occurs sep pre.
Proof.
  intros NE F.
  destruct (find_some _ _ _ F) as (pre & post & E & L & Min).
  exists pre, post. repeat split; auto.
  intros (x & y & Ex).
  specialize (Min x (y ++ sep ++ post)).
  assert (i <= length x).
  { apply Min. rewrite E, Ex, !append_assoc. reflexivity. }
  rewrite Ex, !length_append in L. lia.
Qed.

(** [split] cuts the string at occurrences of the separator and nowhere
    else: joining the pieces with the separator gives the string back, and
    no piece holds the separator. *)
Lemma split_fuel_join (sep : string) :
  0 < length sep ->
  forall fuel s, length s <= fuel ->
    join sep (split_fuel fuel sep s) = s
    /\ Forall (fun p => ~ Spec.occurs sep p) (split_fuel fuel sep s).
Proof.
  intros NE. induction fuel as [|fuel IH]; intros s Lf.
  - simpl. split; [reflexivity|].
    constructor; [|constructor]. intros O. apply length_occurs in O. lia.
  - destruct (find sep s) as [i|] eqn:F.
    + destruct (split_fuel_step fuel _ _ _ F) as (p1 & t1 & E1 & L1 & ->).
      destruct (find_some_clean _ _ _ NE F) as (p2 & t2 & E2 & L2 & C).
      assert (p2 = p1).
      { rewrite E1 in E2.
        destruct (append_eq_append p1 (sep ++ t1) p2 (sep ++ t2) E2
                    ltac:(lia)) as (x & -> & _).
        rewrite length_append in L2.
        assert (x = "") as -> by (apply length_zero; lia).
        clear. induction p1; simpl; congruence. }
      subst p2.
      assert (Lt : length t1 <= fuel).
      { rewrite E1, !length_append in Lf. lia. }
      destruct (IH t1 Lt) as [J A].
      split.
      * pose proof (split_fuel_not_nil fuel sep t1) as N.
        destruct (split_fuel fuel sep t1) as [|q l]; [congruence|].
        change (join sep (p1 :: q :: l)) with (p1 ++ sep ++ join sep (q :: l)).
        rewrite J. symmetry. exact E1.
      * constructor; assumption.
    + simpl. rewrite F. split; [reflexivity|].
      constructor; [|constructor]. now apply find_none.
Qed.

Lemma join_last (sep : string) (l : list string) :
  l <> [] -> exists a, join sep l = a ++ last l "".
Proof.
  induction l as [|p l IH]; [congruence|]. intros _.
  destruct l as [|q l].
  - exists "". reflexivity.
  - destruct (IH ltac:(discriminate)) as (a & E).
    exists (p ++ sep ++ a).
    change (join sep (p :: q :: l)) with (p ++ sep ++ join sep (q :: l)).
    rewrite E.
    change (last (p :: q :: l) "") with (last (q :: l) "").
    now rewrite !append_assoc.
Qed.

Lemma join_head (sep : string) (l : list string) :
  exists b, join sep l = hd "" l ++ b.
Proof.
  destruct l as [|p [|q l]].
  - exists "". reflexivity.
  - exists "". simpl. clear. induction p; simpl; congruence.
  - eexists. reflexivity.
Qed.

Lemma append_empty_r (s : string) : s ++ "" = s.
Proof. induction s; simpl; congruence. Qed.

(** ** The identifier cut out of a URL *)

Lemma before_first_no_char (c : ascii) (s : string) :
  ~ Spec.occurs (String c "") (Spec.before_first c s).
Proof.
  induction s as [|a s IH]; simpl.
  - intros (x & y & E). destruct x; discriminate.
  - destruct (Ascii.eqb_spec a c) as [->|N].
    + intros (x & y & E). destruct x; discriminate.
    + intros (x & y & E). destruct x as [|b x]; simpl in E.
      * congruence.
      * injection E as _ E. apply IH. now exists x, y.
Qed.

Lemma before_first_prefix (c : ascii) (s : string) :
  exists b, s = Spec.before_first c s ++ b.
Proof.
  induction s as [|a s (b & IH)]; simpl.
  - exists "". reflexivity.
  - destruct (Ascii.eqb a c); [eexists; reflexivity|].
    exists b. simpl. congruence.
Qed.

End MoreStrFacts.

Module MoreSpiderFacts.

Import TargetSpider SpiderFacts StrFacts MoreStrFacts Closed.

(** ** Dict comprehensions, continued *)

Lemma lookup_dict_set (k k' : string) (v : value) (d : list (string * value)) :
  lookup k (dict_set k' v d)
  = if String.eqb k' k then Some v else lookup k d.
Proof.
  induction d as [|[k0 v0] d IH]; simpl.
  - reflexivity.
  - destruct (String.eqb_spec k0 k') as [->|N]; simpl.
    + destruct (String.eqb k' k); reflexivity.
    + rewrite IH.
      destruct (String.eqb_spec k0 k) as [->|N']; [|reflexivity].
      destruct (String.eqb_spec k' k) as [->|]; [congruence | reflexivity].
Qed.

Lemma find_snoc {A : Type} (p : A -> bool) (l : list A) (x : A) :
  List.find p (l ++ [x])
  = match List.find p l with
    | Some y => Some y
    | None => if p x then Some x else None
    end.
Proof.
  induction l as [|a l IH]; simpl; [reflexivity|].
  destruct (p a); [reflexivity | exact IH].
Qed.

(** Looking a key up in a comprehension finds the value of the last
    element that produced the key. *)
Lemma lookup_dict_comp {A : Type} (key : A -> string) (val : A -> value)
    (xs : list A) (k : string) :
  lookup k (dict_comp key val xs)
  = option_map val (List.find (fun x => String.eqb (key x) k) (rev xs)).
Proof.
  unfold dict_comp.
  assert (G : forall d,
             lookup k (fold_left (fun d x => dict_set (key x) (val x) d) xs d)
             = match List.find (fun x => String.eqb (key x) k) (rev xs) with
               | Some x => Some (val x)
               | None => lookup k d
               end).
  { induction xs as [|x xs IH]; intros d; simpl; [reflexivity|].
    rewrite IH, find_snoc, lookup_dict_set.
    destruct (List.find _ (rev xs)); [reflexivity|].
    destruct (String.eqb (key x) k); reflexivity. }
  rewrite G. destruct (List.find _ (rev xs)); reflexivity.
Qed.

Lemma dict_comp_keys {A : Type} (key : A -> string) (val : A -> value)
    (xs : list A) (k : string) :
  In k (map fst (dict_comp key val xs)) <-> In k (map key xs).
Proof.
  unfold dict_comp.
  assert (G : forall d,
             In k (map fst
                     (fold_left (fun d x => dict_set (key x) (val x) d) xs d))
             <-> In k (map key xs) \/ In k (map fst d)).
  { induction xs as [|x xs IH]; intros d; simpl; [tauto|].
    rewrite IH, dict_set_keys. intuition congruence. }
  rewrite G. simpl. tauto.
Qed.

Lemma dict_set_pairs (Q : string -> Prop) (P : value -> Prop) (k : string)
    (v : value) (d : list (string * value)) :
  Q k -> P v -> Forall (fun kv => Q (fst kv) /\ P (snd kv)) d ->
  Forall (fun kv => Q (fst kv) /\ P (snd kv)) (dict_set k v d).
Proof.
  intros Hk Hv. induction d as [|[k0 v0] d IH]; simpl; intros H.
  - constructor; [split; assumption | constructor].
  - inversion H as [|? ? [Hq Hp] Hd]; subst. simpl in Hq.
    destruct (String.eqb k0 k); constructor; auto.
Qed.

Lemma dict_comp_pairs {A : Type} (Q : string -> Prop) (P : value -> Prop)
    (key : A -> string) (val : A -> value) (xs : list A) :
  (forall x, Q (key x)) -> (forall x, P (val x)) ->
  Forall (fun kv => Q (fst kv) /\ P (snd kv)) (dict_comp key val xs).
Proof.
  intros HQ HP. unfold dict_comp.
  assert (G : forall d,
             Forall (fun kv => Q (fst kv) /\ P (snd kv)) d ->
             Forall (fun kv => Q (fst kv) /\ P (snd kv))
               (fold_left (fun d x => dict_set (key x) (val x) d) xs d)).
  { induction xs as [|x xs IH]; intros d F; simpl; [assumption|].
    apply IH, dict_set_pairs; auto. }
  apply G. constructor.
Qed.

Lemma dict_comp_nil_iff {A : Type} (key : A -> string) (val : A -> value)
    (xs : list A) :
  dict_comp key val xs = [] <-> xs = [].
Proof.
  split; [|intros ->; reflexivity].
  destruct xs as [|x xs]; [reflexivity|]. intros E. exfalso.
  assert (I : In (key x) (map fst (dict_comp key val (x :: xs))))
    by (apply dict_comp_keys; left; reflexivity).
  rewrite E in I. exact I.
Qed.

Lemma combine_nil_iff {A B : Type} (l : list A) (l' : list B) :
  combine l l' = [] <-> l = [] \/ l' = [].
Proof.
  split; [|apply combine_nil_either].
  destruct l, l'; simpl; auto. discriminate.
Qed.

Lemma nodupb_sound (l : list string) : nodupb l = true -> NoDup l.
Proof.
  induction l as [|x l IH]; simpl; [constructor|].
  intros H. apply andb_true_iff in H as [N D].
  constructor; [|auto].
  intros I. apply negb_true_iff in N.
  assert (existsb (String.eqb x) l = true).
  { apply existsb_exists. exists x. split; [assumption | apply String.eqb_refl]. }
  congruence.
Qed.

Lemma existsb_eqb_in (x : string) (l : list string) :
  existsb (String.eqb x) l = true <-> In x l.
Proof.
  rewrite existsb_exists. split.
  - intros (y & I & E). apply String.eqb_eq in E. now subst.
  - intros I. exists x. split; [assumption | apply String.eqb_refl].
Qed.

Lemma no_description_any (l : list string) :
  no_description l = negb (any_nonblank l).
Proof. destruct l; reflexivity. Qed.

Lemma before_first_fixed (c : ascii) (s : string) :
  ~ Spec.occurs (String c "") s -> Spec.before_first c s = s.
Proof.
  induction s as [|a s IH]; simpl; [reflexivity|]. intros N.
  destruct (Ascii.eqb_spec a c) as [->|Ne].
  - exfalso. apply N. exists "", s. reflexivity.
  - f_equal. apply IH. intros (x & y & E). apply N.
    exists (String a x), y. rewrite E. reflexivity.
Qed.

(** ** One run of [parse], followed to the end *)

Section Properties.

Variable select : string -> string -> list string.
Variable loads : string -> result value.

Local Arguments initial_state_xpath : simpl never.
Local Arguments product_name_xpath : simpl never.
Local Arguments categories_xpath : simpl never.
Local Arguments images_xpath : simpl never.
Local Arguments specs_xpath : simpl never.
Local Arguments specs_values_xpath : simpl never.
Local Arguments fallback_specs_xpath : simpl never.
Local Arguments description_xpath_1 : simpl never.
Local Arguments description_xpath_2 : simpl never.
Local Arguments description_xpath_3 : simpl never.
Local Arguments sale_price_xpath_1 : simpl never.
Local Arguments sale_price_xpath_2 : simpl never.
Local Arguments price_xpaths : simpl never.

Ltac run :=
  unfold bind, ret, lift, assign, asked, xpath_get, xpath_getall,
    bind, ret, asked;
  cbn [st_item st_queries fst snd].

Lemma fallback_specifications_exact r st :
  fallback_specifications select r st
  = (inr tt,
     mkState (setitem specifications (VDict (specs_value select r))
                (st_item st))
             (st_queries st ++ specs_trace select r)).
Proof.
  unfold fallback_specifications, specs_value, specs_trace, primary_specs,
    specs_pairs.
  run.
  destruct (dict_comp _ _ (combine _ _)); cbn [st_item st_queries app];
    rewrite <- ?app_assoc; reflexivity.
Qed.

Lemma fallback_description_exact r st :
  fallback_description select r st
  = (inr tt,
     mkState (setitem description (description_value select r) (st_item st))
             (st_queries st ++ description_trace select r)).
Proof.
  unfold fallback_description, description_value, description_trace. run.
  destruct (no_description (select (text r) description_xpath_1)) eqn:N1;
    cbn [st_item st_queries].
  - destruct (no_description (select (text r) description_xpath_2)) eqn:N2;
      cbn [st_item st_queries]; rewrite <- ?app_assoc; reflexivity.
  - rewrite N1. cbn [st_item st_queries]. reflexivity.
Qed.

Lemma parse_fallback_exact r st :
  _parse_fallback select r st
  = (inr tt,
     mkState (fallback_item select r (st_item st))
             (st_queries st ++ fallback_trace select r)).
Proof.
  unfold _parse_fallback. run.
  rewrite fallback_specifications_exact. cbn [st_item st_queries].
  rewrite fallback_description_exact. cbn [st_item st_queries].
  rewrite fallback_price_run. cbn [st_item st_queries].
  unfold fallback_item, fallback_trace, sale_value, sale_trace, price_value,
    price_trace, categories_value.
  destruct (truthy_str (hd_error (select (text r) sale_price_xpath_1))) eqn:T;
    cbn [st_item st_queries]; rewrite ?T;
    (f_equal; f_equal;
     [ destruct (select (text r) categories_xpath); reflexivity
     | rewrite <- !app_assoc; reflexivity ]).
Qed.

(** What [parse] yields, and asks, on the fallback path *)
Lemma yielded_fallback_exact self r :
  takes_fallback select loads r = true ->
  yielded select loads self r
  = inr (fallback_item select r (st_item (entry_state r)))
  /\ queries select loads self r
     = initial_state_xpath :: fallback_trace select r.
Proof.
  intros F. unfold yielded, queries.
  rewrite (run_parse_fallback select loads self r F), parse_fallback_exact.
  split; reflexivity.
Qed.

Lemma fill_from_json_exact data pd pr st :
  product_section data "details" = inr (VDict pd) ->
  product_section data "price" = inr (VDict pr) ->
  fill_from_json data st
  = (inr tt, mkState (json_item pd pr (st_item st)) (st_queries st)).
Proof.
  intros D P.
  destruct (fill_from_json_dicts data pd pr st D P) as (p & d & Hp & Hd & ->).
  unfold json_price, json_discount_price, get, get_default in Hp, Hd.
  unfold json_item. cbv zeta.
  destruct (truthy (dict_get pr "current_retail" VNone));
    [|destruct (truthy (dict_get pr "formatted_current_price" VNone))];
    injection Hp as <-;
    destruct (py_ne _ _); injection Hd as <-; reflexivity.
Qed.

(** What [parse] yields on the JSON path *)
Lemma yielded_json_exact self r data it :
  blob select loads r = Some data ->
  yielded select loads self r = inr it ->
  exists pd pr,
    product_section data "details" = inr (VDict pd)
    /\ product_section data "price" = inr (VDict pr)
    /\ it = json_item pd pr (st_item (entry_state r)).
Proof.
  intros B. unfold yielded.
  rewrite (run_parse_json select loads self r data B).
  destruct (fill_from_json data (entry_state r)) as [[e|[]] st'] eqn:E;
    [discriminate|].
  destruct (fill_from_json_ok _ _ _ E) as (pd & pr & D & P).
  rewrite (fill_from_json_exact data pd pr _ D P) in E.
  injection E as <-. intros [= <-]. exists pd, pr. auto.
Qed.

Lemma asks_nothing_bind {A B : Type} (m : M A) (k : A -> M B) :
  asks_nothing m -> (forall a, asks_nothing (k a)) -> asks_nothing (bind m k).
Proof.
  intros Hm Hk st r st'. unfold bind.
  destruct (m st) as [[e|a] st0] eqn:E.
  - intros [= <- <-]. eapply Hm, E.
  - intros K. rewrite (Hk a _ _ _ K). eapply Hm, E.
Qed.

Lemma asks_nothing_lift {A : Type} (r : result A) : asks_nothing (lift r).
Proof. intros st r' st' [= _ <-]. reflexivity. Qed.

Lemma asks_nothing_assign f v : asks_nothing (assign f v).
Proof. intros st r st' [= _ <-]. reflexivity. Qed.

Lemma fill_from_json_asks_nothing data : asks_nothing (fill_from_json data).
Proof.
  unfold fill_from_json.
  repeat first
    [ apply asks_nothing_assign
    | apply asks_nothing_bind; [|intros ?]
    | apply asks_nothing_lift ].
Qed.

(** On the JSON path the script query is the only one evaluated. *)
Lemma json_queries self r data :
  blob select loads r = Some data ->
  queries select loads self r = [initial_state_xpath].
Proof.
  intros B. unfold queries.
  rewrite (run_parse_json select loads self r data B).
  destruct (fill_from_json data (entry_state r)) as [res st'] eqn:E.
  cbn [snd]. now rewrite (fill_from_json_asks_nothing data _ _ _ E).
Qed.

(** The three ways through [parse]: the blob is decoded, the fallback
    runs, or an exception of lines 47-48 leaves [parse]. *)
Lemma parse_paths r :
  (exists data, blob select loads r = Some data)
  \/ takes_fallback select loads r = true
  \/ (exists e, escapes select loads r = Some e).
Proof.
  destruct (blob select loads r) as [data|] eqn:B; [eauto|].
  right. now apply takes_fallback_blob.
Qed.

(** Such an exception leaves [parse] with only the script query asked. *)
Lemma escapes_queries self r e :
  escapes select loads r = Some e ->
  yielded select loads self r = inl e
  /\ queries select loads self r = [initial_state_xpath].
Proof.
  intros X. unfold yielded, queries.
  rewrite (run_parse_escapes select loads self r e X). split; reflexivity.
Qed.

(** It is an exception of the decoder, other than the two named by the
    [except] clause: line 47 raises nothing but [IndexError]. *)
Lemma escapes_iff r e :
  escapes select loads r = Some e <->
  exists script_data json_data,
    script_of select r = Some script_data /\ script_data <> ""
    /\ blob_text script_data = inr json_data
    /\ loads json_data = inl e
    /\ e <> JSONDecodeError /\ e <> IndexError.
Proof.
  unfold escapes, decode_blob, json_loads. split.
  - destruct (script_of select r) as [sd|]; [|discriminate].
    destruct sd as [|c sd]; [discriminate|]. cbn [PyStr.is_empty negb].
    destruct (blob_text (String c sd)) as [e0|j] eqn:T.
    + unfold blob_text in T.
      destruct (index _ 1) as [e1|part] eqn:I; [|discriminate].
      unfold index in I. destruct (nth_error _ 1); [discriminate|].
      injection I as <-. injection T as <-. discriminate.
    + destruct (loads j) as [e0|v] eqn:L; [|discriminate].
      destruct (caught e0) eqn:C; [discriminate|].
      intros [= <-]. exists (String c sd), j.
      repeat split; try assumption; try discriminate;
        intros ->; discriminate.
  - intros (sd & j & -> & NE & -> & -> & N1 & N2).
    destruct sd; [congruence|]. cbn [PyStr.is_empty negb].
    destruct e; (congruence || reflexivity).
Qed.

End Properties.

End MoreSpiderFacts.

(** * Further properties, stated on [parse] and its helpers *)

Import TargetSpider SpiderFacts StrFacts MoreStrFacts MoreSpiderFacts Closed.

(** X2: the identifier cut out of a URL holds neither a [#] nor the marker
    [/-/A-], it is a piece of the URL, and cutting it again changes
    nothing. *)
Theorem url_id_clean u :
  ~ Spec.occurs "#" (url_id u)
  /\ ~ Spec.occurs "/-/A-" (url_id u)
  /\ (exists a b, u = a ++ url_id u ++ b)
  /\ url_id (url_id u) = url_id u.
Proof.
  assert (E : url_id u
              = Spec.before_first "#"
                  (last (PyStr.split_fuel (length u) "/-/A-" u) ""))
    by apply split_char_head.
  destruct (split_fuel_join "/-/A-" ltac:(simpl; lia) (length u) u (le_n _))
    as [J A].
  set (l := PyStr.split_fuel (length u) "/-/A-" u) in *.
  assert (Nl : l <> []) by apply split_fuel_not_nil.
  assert (Hash : ~ Spec.occurs "#" (url_id u))
    by (rewrite E; apply before_first_no_char).
  assert (Mark : ~ Spec.occurs "/-/A-" (url_id u)).
  { rewrite E. intros O.
    destruct (before_first_prefix "#" (last l "")) as (b & Eb).
    apply (occurs_prefix _ _ b) in O. rewrite <- Eb in O.
    rewrite Forall_forall in A. apply (A (last l "")); [|exact O].
    destruct (exists_last Nl) as (l' & x & ->).
    rewrite last_last. apply in_or_app. right. left. reflexivity. }
  split; [exact Hash|]. split; [exact Mark|]. split.
  - destruct (join_last "/-/A-" l Nl) as (a & Ea).
    destruct (before_first_prefix "#" (last l "")) as (b & Eb).
    exists a, b. rewrite E, <- Eb, <- Ea. symmetry. exact J.
  - rewrite (url_id_without_marker _ Mark).
    apply before_first_fixed, Hash.
Qed.

(** X3: line 47 fails, with [IndexError], exactly when the script text does
    not hold the assignment marker; when it succeeds the JSON text handed to
    the decoder never ends in a semicolon. *)
Theorem blob_text_marker script_data :
  (forall e, blob_text script_data = inl e <->
             e = IndexError
             /\ ~ Spec.occurs "window.__INITIAL_STATE__ = " script_data)
  /\ (forall json_data, blob_text script_data = inr json_data ->
        last_char json_data <> Some ";"%char).
Proof.
  unfold blob_text, index, PyStr.split. split.
  - intros e. split.
    + destruct (length script_data) as [|n] eqn:L.
      * simpl. intros [= <-]. split; [reflexivity|].
        intros O. apply length_occurs in O. simpl in O. lia.
      * cbn [PyStr.split_fuel].
        destruct (PyStr.find _ script_data) as [i|] eqn:F.
        -- pose proof (split_fuel_not_nil n "window.__INITIAL_STATE__ = "
                         (PyStr.drop (i + length "window.__INITIAL_STATE__ = ")
                            script_data)) as N.
           destruct (PyStr.split_fuel n _ _); [congruence|].
           simpl. discriminate.
        -- simpl. intros [= <-]. split; [reflexivity|]. now apply find_none.
    + intros [-> N]. now rewrite (split_fuel_absent _ _ _ N).
  - intros t. destruct (nth_error _ 1); [|discriminate].
    intros [= <-] L. unfold PyStr.rstrip_semicolon in L.
    apply rstrip_by_last in L. discriminate.
Qed.

Section Extras.

Variable select : string -> string -> list string.
Variable loads : string -> result value.

(** X4: an exception leaves [parse] in two cases only.  Either the
    decoder raises, on the JSON text cut out of the script, an exception
    other than the two the [except] clause names, and that exception is
    passed on; or the blob was decoded but its [product.details] or
    [product.price] section is not an object (the blob itself or its
    [product] entry not being one included), and [AttributeError] is
    raised. *)
Theorem parse_raises_iff self r e :
  yielded select loads self r = inl e <->
  (exists script_data json_data,
     script_of select r = Some script_data /\ script_data <> ""
     /\ blob_text script_data = inr json_data
     /\ loads json_data = inl e
     /\ e <> JSONDecodeError /\ e <> IndexError)
  \/ (e = AttributeError
      /\ exists data,
           blob select loads r = Some data
           /\ ~ (exists pd pr,
                   product_section data "details" = inr (VDict pd)
                   /\ product_section data "price" = inr (VDict pr))).
Proof.
  rewrite <- escapes_iff. split.
  - intros Y. destruct (parse_paths select loads r) as [(data & B)|[F|(e' & X)]].
    + right. unfold yielded in Y.
      rewrite (run_parse_json select loads self r data B) in Y.
      destruct (fill_from_json data (entry_state r)) as [[e'|u] st'] eqn:E;
        [|discriminate].
      injection Y as ->.
      split; [eapply fill_from_json_raises, E|].
      exists data. split; [exact B|].
      intros (pd & pr & D & P).
      rewrite (fill_from_json_exact data pd pr _ D P) in E. discriminate.
    + destruct (yielded_fallback_exact select loads self r F) as [Y' _].
      congruence.
    + left. destruct (escapes_queries select loads self r e' X) as [Y' _].
      congruence.
  - intros [X|(-> & data & B & N)].
    + apply (escapes_queries select loads self r e X).
    + unfold yielded.
      rewrite (run_parse_json select loads self r data B).
      destruct (fill_from_json data (entry_state r)) as [[e'|[]] st'] eqn:E.
      * f_equal. eapply fill_from_json_raises, E.
      * exfalso. apply N. eapply fill_from_json_ok, E.
Qed.

(** X5: every item [parse] yields has all declared fields but [variant]
    assigned, [sellers] being [['Target']]; [variant] is assigned exactly
    when the item was filled from the JSON blob: the fallback never sets
    it. *)
Theorem yielded_fields self r it :
  yielded select loads self r = inr it ->
  (forall f, f <> variant -> it f <> None)
  /\ it sellers = Some (VList [VStr "Target"])
  /\ (it variant <> None <-> takes_fallback select loads r = false).
Proof.
  intros Y.
  destruct (parse_paths select loads r) as [(data & B)|[F|(e & X)]].
  3: { destruct (escapes_queries select loads self r e X) as [Y' _].
       congruence. }
  - destruct (yielded_json_exact select loads self r data it B Y)
      as (pd & pr & _ & _ & ->).
    assert (F : takes_fallback select loads r = false).
    { destruct (takes_fallback select loads r) eqn:F; [|reflexivity].
      apply fallback_not_blob in F. congruence. }
    split; [|split].
    + intros f N. destruct f; (discriminate || congruence).
    + reflexivity.
    + split; [intros _; exact F | discriminate].
  - destruct (yielded_fallback_exact select loads self r F) as [Y' _].
    rewrite Y' in Y. injection Y as <-.
    split; [|split].
    + intros f N. destruct f; (discriminate || congruence).
    + reflexivity.
    + rewrite F. split; [intros N; exfalso; apply N; reflexivity | discriminate].
Qed.

(** X6: the page is queried for nothing but the script exactly when the
    fallback does not run: the blob was decoded, or the decoder raised an
    exception that leaves [parse].  So no selector of the fallback is
    evaluated on the JSON path, also when [parse] then raises. *)
Theorem json_path_single_query self r :
  queries select loads self r = [initial_state_xpath]
  <-> (exists data, blob select loads r = Some data)
      \/ (exists e, escapes select loads r = Some e).
Proof.
  split.
  - intros Q.
    destruct (parse_paths select loads r) as [B|[F|X]]; [now left| |now right].
    destruct (yielded_fallback_exact select loads self r F) as [_ Q'].
    rewrite Q' in Q. discriminate.
  - intros [(data & B)|(e & X)].
    + apply (json_queries select loads self r data B).
    + apply (escapes_queries select loads self r e X).
Qed.

(** X7: one call of [parse] starts with the script query, evaluates no
    query twice, and evaluates none but the seventeen of the source. *)
Theorem queries_once_each self r :
  hd_error (queries select loads self r) = Some initial_state_xpath
  /\ NoDup (queries select loads self r)
  /\ incl (queries select loads self r) all_xpaths.
Proof.
  destruct (parse_paths select loads r) as [B|[F|X]].
  3: { destruct X as (e & X).
       destruct (escapes_queries select loads self r e X) as [_ ->].
       split; [reflexivity|]. split.
       + constructor; [intros [] | constructor].
       + intros q [<-|[]]. left. reflexivity. }
  - destruct B as (data & B).
    rewrite (json_queries select loads self r data B).
    split; [reflexivity|]. split.
    + constructor; [intros [] | constructor].
    + intros q [<-|[]]. left. reflexivity.
  - destruct (yielded_fallback_exact select loads self r F) as [_ ->].
    split; [reflexivity|].
    assert (T : nodupb (initial_state_xpath :: fallback_trace select r)
                && forallb (fun q => existsb (String.eqb q) all_xpaths)
                     (initial_state_xpath :: fallback_trace select r) = true).
    { unfold fallback_trace, specs_trace, description_trace, price_trace,
        sale_trace.
      generalize (Spec.attempts_made (price_results select r)) as n.
      destruct (primary_specs select r);
        destruct (no_description (select (text r) description_xpath_1));
        destruct (no_description (select (text r) description_xpath_2));
        destruct (truthy_str
                    (hd_error (select (text r) sale_price_xpath_1)));
        intros n;
        do 6 (destruct n as [|n]; [vm_compute; reflexivity|]);
        vm_compute; reflexivity. }
    apply andb_true_iff in T as [N I]. split.
    + apply nodupb_sound, N.
    + rewrite forallb_forall in I. intros q Hq.
      apply existsb_eqb_in, I, Hq.
Qed.

(** X8: on the fallback path the categories are the breadcrumb texts,
    stripped, without the blank ones: every category is non-empty and has
    no white space at either end. *)
Theorem fallback_categories_clean self r :
  takes_fallback select loads r = true ->
  exists it cats,
    yielded select loads self r = inr it
    /\ it categories = Some (VList (map VStr cats))
    /\ Forall (fun c => c <> "" /\ no_outer_space c) cats
    /\ (forall c, In c cats <->
                  exists t, In t (select (text r) categories_xpath)
                            /\ PyStr.strip t = c /\ c <> "").
Proof.
  intros F.
  destruct (yielded_fallback_exact select loads self r F) as [Y _].
  exists (fallback_item select r (st_item (entry_state r))),
    (map PyStr.strip
       (filter (fun cat => negb (PyStr.is_empty (PyStr.strip cat)))
          (select (text r) categories_xpath))).
  split; [exact Y|]. split; [|split].
  - unfold fallback_item, categories_value. cbv [setitem field_eqb].
    rewrite map_map. destruct (select (text r) categories_xpath); reflexivity.
  - apply Forall_forall. intros c I.
    apply in_map_iff in I as (t & <- & I). apply filter_In in I as [_ I].
    split; [|apply strip_no_outer_space].
    destruct (PyStr.strip t); [discriminate | discriminate].
  - intros c. rewrite in_map_iff. split.
    + intros (t & <- & I). apply filter_In in I as [I N].
      exists t. repeat split; auto.
      destruct (PyStr.strip t); discriminate.
    + intros (t & I & <- & N). exists t. split; [reflexivity|].
      apply filter_In. split; [exact I|].
      destruct (PyStr.strip t); [congruence | reflexivity].
Qed.

(** X9: on the fallback path [price] and [discount_price] are each [None]
    or a string with no white space at either end. *)
Theorem fallback_prices_stripped self r :
  takes_fallback select loads r = true ->
  exists it,
    yielded select loads self r = inr it
    /\ Forall (fun f => it f = Some VNone
                        \/ exists s, it f = Some (VStr s) /\ no_outer_space s)
         [price; discount_price].
Proof.
  intros F.
  destruct (yielded_fallback_exact select loads self r F) as [Y _].
  eexists. split; [exact Y|].
  unfold fallback_item. cbv [setitem field_eqb].
  constructor; [|constructor; [|constructor]].
  - unfold price_value.
    destruct (Spec.first_hit (price_results select r)); [right | left; auto].
    eexists. split; [reflexivity | apply strip_no_outer_space].
  - unfold sale_value. cbv zeta.
    destruct (truthy_str (hd_error (select (text r) sale_price_xpath_1)))
      eqn:T1.
    + rewrite T1.
      destruct (hd_error (select (text r) sale_price_xpath_1));
        [right | discriminate].
      eexists. split; [reflexivity | apply strip_no_outer_space].
    + destruct (truthy_str (hd_error (select (text r) sale_price_xpath_2)))
        eqn:T2; [|left; reflexivity].
      destruct (hd_error (select (text r) sale_price_xpath_2));
        [right | discriminate].
      eexists. split; [reflexivity | apply strip_no_outer_space].
Qed.

(** X10: on the fallback path the discount price is the stripped result of
    the first of the two sale-price selectors that yields a value, [None]
    when neither does, and the second selector is evaluated exactly when
    the first yields nothing. *)
Theorem fallback_discount_price_attempts self r :
  takes_fallback select loads r = true ->
  exists it,
    yielded select loads self r = inr it
    /\ it discount_price
       = Some (match Spec.first_hit
                       [hd_error (select (text r) sale_price_xpath_1);
                        hd_error (select (text r) sale_price_xpath_2)] with
               | Some p => VStr (PyStr.strip p)
               | None => VNone
               end)
    /\ (In sale_price_xpath_2 (queries select loads self r)
        <-> truthy_str (hd_error (select (text r) sale_price_xpath_1))
            = false).
Proof.
  intros F.
  destruct (yielded_fallback_exact select loads self r F) as [Y Q].
  eexists. split; [exact Y|]. split.
  - unfold fallback_item. cbv [setitem field_eqb].
    unfold sale_value. cbv zeta. cbn [Spec.first_hit].
    destruct (truthy_str (hd_error (select (text r) sale_price_xpath_1)))
      eqn:T1.
    + rewrite T1.
      destruct (hd_error (select (text r) sale_price_xpath_1));
        [reflexivity | discriminate].
    + destruct (truthy_str (hd_error (select (text r) sale_price_xpath_2)))
        eqn:T2; [|reflexivity].
      destruct (hd_error (select (text r) sale_price_xpath_2));
        [reflexivity | discriminate].
  - rewrite Q, <- existsb_eqb_in.
    assert (T : existsb (String.eqb sale_price_xpath_2)
                  (initial_state_xpath :: fallback_trace select r)
                = negb (truthy_str
                          (hd_error (select (text r) sale_price_xpath_1)))).
    { unfold fallback_trace, specs_trace, description_trace, price_trace,
        sale_trace.
      generalize (Spec.attempts_made (price_results select r)) as n.
      destruct (primary_specs select r);
        destruct (no_description (select (text r) description_xpath_1));
        destruct (no_description (select (text r) description_xpath_2));
        destruct (truthy_str
                    (hd_error (select (text r) sale_price_xpath_1)));
        intros n;
        do 6 (destruct n as [|n]; [vm_compute; reflexivity|]);
        vm_compute; reflexivity. }
    rewrite T. apply negb_true_iff.
Qed.

(** X11: on the fallback path the description is the list of text nodes of
    the first description selector when one of them is not blank, else that
    of the second selector when one of those is not blank, else the content
    of the description meta tag, and [''] when there is none: a list in the
    first two cases, a string in the last. *)
Theorem fallback_description_choice self r :
  takes_fallback select loads r = true ->
  exists it,
    yielded select loads self r = inr it
    /\ let d1 := select (text r) description_xpath_1 in
       let d2 := select (text r) description_xpath_2 in
       let meta := hd_error (select (text r) description_xpath_3) in
       (any_nonblank d1 = true ->
        it description = Some (VList (map VStr d1)))
       /\ (any_nonblank d1 = false -> any_nonblank d2 = true ->
           it description = Some (VList (map VStr d2)))
       /\ (any_nonblank d1 = false -> any_nonblank d2 = false ->
           it description
           = Some (VStr (match meta with Some s => s | None => "" end))).
Proof.
  intros F.
  destruct (yielded_fallback_exact select loads self r F) as [Y _].
  eexists. split; [exact Y|]. cbv zeta.
  unfold fallback_item. cbv [setitem field_eqb].
  unfold description_value. cbv zeta. rewrite !no_description_any.
  split; [|split].
  - intros A. rewrite A. cbn [negb].
    assert (N : select (text r) description_xpath_1 <> [])
      by (intros E; rewrite E in A; discriminate).
    destruct (select (text r) description_xpath_1); [congruence|].
    reflexivity.
  - intros -> A. rewrite A. cbn [negb].
    assert (N : select (text r) description_xpath_2 <> [])
      by (intros E; rewrite E in A; discriminate).
    destruct (select (text r) description_xpath_2); [congruence|].
    reflexivity.
  - intros -> ->. cbn [negb].
    destruct (hd_error (select (text r) description_xpath_3)) as [[|c s]|];
      reflexivity.
Qed.

(** X12: on the fallback path every label of the specifications and every
    value is a string with no white space at either end. *)
Theorem fallback_specifications_stripped self r :
  takes_fallback select loads r = true ->
  exists it d,
    yielded select loads self r = inr it
    /\ it specifications = Some (VDict d)
    /\ Forall (fun kv => no_outer_space (fst kv)
                         /\ exists s, snd kv = VStr s /\ no_outer_space s) d.
Proof.
  intros F.
  destruct (yielded_fallback_exact select loads self r F) as [Y _].
  eexists. exists (specs_value select r).
  split; [exact Y|]. split; [reflexivity|].
  unfold specs_value.
  destruct (primary_specs select r) as [|kv d] eqn:P.
  - apply (dict_comp_pairs no_outer_space
             (fun v => exists s, v = VStr s /\ no_outer_space s)).
    + intros x. apply strip_no_outer_space.
    + intros _. exists "". split; [reflexivity|]. split; discriminate.
  - rewrite <- P. unfold primary_specs.
    apply (dict_comp_pairs no_outer_space
             (fun v => exists s, v = VStr s /\ no_outer_space s)).
    + intros x. apply strip_no_outer_space.
    + intros x. eexists. split; [reflexivity | apply strip_no_outer_space].
Qed.

(** X13: on the fallback path the third specification selector is evaluated
    exactly when the labels or the values of the first two are missing; the
    specifications are then the stripped text nodes it extracts, each with
    the value ['']. *)
Theorem fallback_specifications_plain self r :
  takes_fallback select loads r = true ->
  exists it d,
    yielded select loads self r = inr it
    /\ it specifications = Some (VDict d)
    /\ (In fallback_specs_xpath (queries select loads self r)
        <-> select (text r) specs_xpath = []
            \/ select (text r) specs_values_xpath = [])
    /\ (select (text r) specs_xpath = []
        \/ select (text r) specs_values_xpath = [] ->
        (forall k, In k (map fst d) <->
                   In k (map PyStr.strip
                           (select (text r) fallback_specs_xpath)))
        /\ Forall (fun kv => snd kv = VStr "") d).
Proof.
  intros F.
  destruct (yielded_fallback_exact select loads self r F) as [Y Q].
  assert (N : primary_specs select r = []
              <-> select (text r) specs_xpath = []
                  \/ select (text r) specs_values_xpath = []).
  { unfold primary_specs, specs_pairs.
    rewrite dict_comp_nil_iff. apply combine_nil_iff. }
  eexists. exists (specs_value select r).
  split; [exact Y|]. split; [reflexivity|]. split.
  - rewrite <- N, Q, <- existsb_eqb_in.
    assert (T : existsb (String.eqb fallback_specs_xpath)
                  (initial_state_xpath :: fallback_trace select r)
                = match primary_specs select r with
                  | [] => true
                  | _ => false
                  end).
    { unfold fallback_trace, specs_trace, description_trace, price_trace,
        sale_trace.
      generalize (Spec.attempts_made (price_results select r)) as n.
      destruct (primary_specs select r);
        destruct (no_description (select (text r) description_xpath_1));
        destruct (no_description (select (text r) description_xpath_2));
        destruct (truthy_str
                    (hd_error (select (text r) sale_price_xpath_1)));
        intros n;
        do 6 (destruct n as [|n]; [vm_compute; reflexivity|]);
        vm_compute; reflexivity. }
    rewrite T. destruct (primary_specs select r); split; congruence.
  - intros H. apply N in H. unfold specs_value. rewrite H. split.
    + intros k. apply dict_comp_keys.
    + apply (dict_comp_wf (fun v => v = VStr "")). reflexivity.
Qed.

(** X14: on the fallback path, when the first two specification selectors
    both match, the labels are paired with the values in order, a label or
    value without a partner is dropped, and a label that occurs twice keeps
    the value of its last pair. *)
Theorem fallback_specifications_pairs self r :
  takes_fallback select loads r = true ->
  select (text r) specs_xpath <> [] ->
  select (text r) specs_values_xpath <> [] ->
  exists it d,
    yielded select loads self r = inr it
    /\ it specifications = Some (VDict d)
    /\ forall k,
         lookup k d
         = option_map (fun sv => VStr (PyStr.strip (snd sv)))
             (List.find (fun sv => String.eqb (PyStr.strip (fst sv)) k)
                (rev (combine (select (text r) specs_xpath)
                        (select (text r) specs_values_xpath)))).
Proof.
  intros F N1 N2.
  destruct (yielded_fallback_exact select loads self r F) as [Y _].
  eexists. exists (specs_value select r).
  split; [exact Y|]. split; [reflexivity|].
  intros k. unfold specs_value.
  destruct (primary_specs select r) as [|kv d] eqn:P.
  - exfalso. unfold primary_specs, specs_pairs in P.
    apply dict_comp_nil_iff, combine_nil_iff in P. tauto.
  - rewrite <- P. unfold primary_specs, specs_pairs.
    apply lookup_dict_comp.
Qed.

(** X15: on the JSON path the fields taken from [product.details] are the
    values stored under [title], [categories], [modelNumber], [images],
    [specifications], [description] and [variant]; a key that is absent
    gives [None], [[]], [None], [[]], [[]], [''] and [''], while a key that
    is present with the value [null] gives [None], not the default. *)
Theorem json_fields_from_details self r data it :
  blob select loads r = Some data ->
  yielded select loads self r = inr it ->
  exists pd,
    product_section data "details" = inr (VDict pd)
    /\ Forall (fun fkd : field * string * value =>
                 let '(f, k, default) := fkd in
                 (lookup k pd = None -> it f = Some default)
                 /\ (forall v, lookup k pd = Some v -> it f = Some v))
         [ (product_name, "title", VNone);
           (categories, "categories", VList []);
           (model_no, "modelNumber", VNone);
           (images, "images", VList []);
           (specifications, "specifications", VList []);
           (description, "description", VStr "");
           (variant, "variant", VStr "") ].
Proof.
  intros B Y.
  destruct (yielded_json_exact select loads self r data it B Y)
    as (pd & pr & D & _ & ->).
  exists pd. split; [exact D|].
  unfold json_item. cbv [setitem field_eqb]. unfold dict_get.
  repeat constructor; try (intros ->; reflexivity);
    intros v ->; reflexivity.
Qed.

(** X16: a blob that is an object without a [product] entry does not send
    [parse] to the fallback and does not make it raise: the item is yielded
    with the defaults, [price] and [discount_price] being [None]. *)
Theorem json_without_product self r d :
  blob select loads r = Some (VDict d) ->
  lookup "product" d = None ->
  exists it,
    yielded select loads self r = inr it
    /\ queries select loads self r = [initial_state_xpath]
    /\ map it [product_name; categories; model_no; images; specifications;
               description; variant; price; discount_price]
       = map Some [VNone; VList []; VNone; VList []; VList []; VStr "";
                   VStr ""; VNone; VNone].
Proof.
  intros B L.
  assert (S : forall k, product_section (VDict d) k = inr (VDict [])).
  { intros k. unfold product_section, get_default, dict_get. now rewrite L. }
  exists (json_item [] [] (st_item (entry_state r))). split; [|split].
  - unfold yielded.
    rewrite (run_parse_json select loads self r _ B).
    now rewrite (fill_from_json_exact (VDict d) [] [] _ (S _) (S _)).
  - apply (json_queries select loads self r _ B).
  - reflexivity.
Qed.

(** X17: on the JSON path the discount price is null exactly when
    [current_retail_min] is absent or null or equals (Python [==])
    [current_retail]; otherwise it is [current_retail_min], whatever its
    truth value. *)
Theorem json_discount_none_iff self r data it :
  blob select loads r = Some data ->
  yielded select loads self r = inr it ->
  exists pr,
    product_section data "price" = inr (VDict pr)
    /\ let m := dict_get pr "current_retail_min" VNone in
       let c := dict_get pr "current_retail" VNone in
       (it discount_price = Some VNone <-> m = VNone \/ py_eq m c = true)
       /\ (py_eq m c = false -> it discount_price = Some m).
Proof.
  intros B Y.
  destruct (yielded_json_exact select loads self r data it B Y)
    as (pd & pr & _ & P & ->).
  exists pr. split; [exact P|]. cbv zeta.
  unfold json_item. cbv [setitem field_eqb]. cbv zeta. unfold py_ne.
  destruct (py_eq _ _) eqn:E; cbn [negb].
  - split; [|discriminate]. split; auto.
  - split; [|reflexivity]. split.
    + intros [= ->]. left. reflexivity.
    + intros [->|]; [reflexivity | discriminate].
Qed.

End Extras.

(** ** The further properties on the fixtures *)

Lemma parse_raises_iff_witness :
  yielded Catalog.select Catalog.loads Fixtures.spider
    (Catalog.response_of (Fixtures.blob_page Catalog.json_details_string))
  = inl AttributeError
  /\ yielded Catalog.select Catalog.loads Fixtures.spider
       (Catalog.response_of (Fixtures.blob_page Catalog.json_huge_integer))
     = inl ValueError.
Proof.
  split.
  - apply (proj2 (parse_raises_iff Catalog.select Catalog.loads
                    Fixtures.spider
                    (Catalog.response_of
                       (Fixtures.blob_page Catalog.json_details_string))
                    AttributeError)).
    right. split; [reflexivity|].
    exists Catalog.value_details_string. split; [vm_compute; reflexivity|].
    intros (pd & pr & D & _). vm_compute in D. discriminate.
  - apply (proj2 (parse_raises_iff Catalog.select Catalog.loads
                    Fixtures.spider
                    (Catalog.response_of
                       (Fixtures.blob_page Catalog.json_huge_integer))
                    ValueError)).
    left.
    exists (Fixtures.script_text Catalog.json_huge_integer),
      Catalog.json_huge_integer.
    split; [vm_compute; reflexivity|]. split; [discriminate|].
    split; [vm_compute; reflexivity|]. split; [vm_compute; reflexivity|].
    split; discriminate.
Defined.

Lemma yielded_fields_witness :
  exists it,
    yielded Fixtures.select Fixtures.loads Fixtures.spider
      (Fixtures.response_of (Fixtures.blob_page Fixtures.json_reduced))
    = inr it
    /\ it sellers = Some (VList [VStr "Target"])
    /\ it variant <> None.
Proof.
  yields it Y. eexists. split; [reflexivity|].
  destruct (yielded_fields Fixtures.select Fixtures.loads Fixtures.spider
              (Fixtures.response_of (Fixtures.blob_page Fixtures.json_reduced))
              _ Y) as (_ & S & V).
  split; [exact S|]. apply V. vm_compute. reflexivity.
Defined.

Lemma fallback_categories_clean_witness :
  exists it cats,
    yielded Catalog.select Catalog.loads Fixtures.spider
      (Catalog.response_of Catalog.detail_page) = inr it
    /\ it categories = Some (VList (map VStr cats))
    /\ Forall (fun c => c <> "" /\ no_outer_space c) cats
    /\ In "Home" cats.
Proof.
  assert (F : takes_fallback Catalog.select Catalog.loads
                (Catalog.response_of Catalog.detail_page) = true)
    by (vm_compute; reflexivity).
  destruct (fallback_categories_clean Catalog.select Catalog.loads
              Fixtures.spider (Catalog.response_of Catalog.detail_page) F)
    as (it & cats & Y & C & A & I).
  exists it, cats. split; [exact Y|]. split; [exact C|]. split; [exact A|].
  apply I. exists " Home ". split; [|split].
  - vm_compute. left. reflexivity.
  - vm_compute. reflexivity.
  - discriminate.
Defined.

Lemma fallback_prices_stripped_witness :
  exists it,
    yielded Catalog.select Catalog.loads Fixtures.spider
      (Catalog.response_of Catalog.detail_page) = inr it
    /\ Forall (fun f => it f = Some VNone
                        \/ exists s, it f = Some (VStr s) /\ no_outer_space s)
         [price; discount_price].
Proof.
  apply (fallback_prices_stripped Catalog.select Catalog.loads Fixtures.spider
           (Catalog.response_of Catalog.detail_page)).
  vm_compute. reflexivity.
Defined.

Lemma fallback_discount_price_attempts_witness :
  exists it,
    yielded Catalog.select Catalog.loads Fixtures.spider
      (Catalog.response_of Catalog.detail_page) = inr it
    /\ it discount_price = Some (VStr "$4")
    /\ In sale_price_xpath_2
         (queries Catalog.select Catalog.loads Fixtures.spider
            (Catalog.response_of Catalog.detail_page)).
Proof.
  assert (F : takes_fallback Catalog.select Catalog.loads
                (Catalog.response_of Catalog.detail_page) = true)
    by (vm_compute; reflexivity).
  destruct (fallback_discount_price_attempts Catalog.select Catalog.loads
              Fixtures.spider (Catalog.response_of Catalog.detail_page) F)
    as (it & Y & D & I).
  exists it. split; [exact Y|]. split.
  - rewrite D. vm_compute. reflexivity.
  - apply I. vm_compute. reflexivity.
Defined.

Lemma fallback_description_choice_witness :
  exists it,
    yielded Catalog.select Catalog.loads Fixtures.spider
      (Catalog.response_of Catalog.detail_page) = inr it
    /\ it description = Some (VList [VStr "Bright."]).
Proof.
  assert (F : takes_fallback Catalog.select Catalog.loads
                (Catalog.response_of Catalog.detail_page) = true)
    by (vm_compute; reflexivity).
  destruct (fallback_description_choice Catalog.select Catalog.loads
              Fixtures.spider (Catalog.response_of Catalog.detail_page) F)
    as (it & Y & H).
  cbv zeta in H. destruct H as (H1 & _).
  exists it. split; [exact Y|].
  rewrite H1 by (vm_compute; reflexivity). vm_compute. reflexivity.
Defined.

Lemma fallback_specifications_stripped_witness :
  exists it d,
    yielded Catalog.select Catalog.loads Fixtures.spider
      (Catalog.response_of Catalog.detail_page) = inr it
    /\ it specifications = Some (VDict d)
    /\ Forall (fun kv => no_outer_space (fst kv)
                         /\ exists s, snd kv = VStr s /\ no_outer_space s) d.
Proof.
  apply (fallback_specifications_stripped Catalog.select Catalog.loads
           Fixtures.spider (Catalog.response_of Catalog.detail_page)).
  vm_compute. reflexivity.
Defined.

Lemma fallback_specifications_plain_witness :
  exists it d,
    yielded Catalog.select Catalog.loads Fixtures.spider
      (Catalog.response_of Catalog.plain_specs_page) = inr it
    /\ it specifications = Some (VDict d)
    /\ In fallback_specs_xpath
         (queries Catalog.select Catalog.loads Fixtures.spider
            (Catalog.response_of Catalog.plain_specs_page))
    /\ In "" (map fst d)
    /\ Forall (fun kv => snd kv = VStr "") d.
Proof.
  assert (F : takes_fallback Catalog.select Catalog.loads
                (Catalog.response_of Catalog.plain_specs_page) = true)
    by (vm_compute; reflexivity).
  destruct (fallback_specifications_plain Catalog.select Catalog.loads
              Fixtures.spider (Catalog.response_of Catalog.plain_specs_page) F)
    as (it & d & Y & S & Q & H).
  assert (E : Catalog.select
                (text (Catalog.response_of Catalog.plain_specs_page))
                specs_xpath = []
              \/ Catalog.select
                   (text (Catalog.response_of Catalog.plain_specs_page))
                   specs_values_xpath = [])
    by (left; vm_compute; reflexivity).
  destruct (H E) as (K & V).
  exists it, d. split; [exact Y|]. split; [exact S|].
  split; [apply Q, E|]. split; [|exact V].
  apply K. vm_compute. right. left. reflexivity.
Defined.

Lemma fallback_specifications_pairs_witness :
  exists it d,
    yielded Catalog.select Catalog.loads Fixtures.spider
      (Catalog.response_of Catalog.detail_page) = inr it
    /\ it specifications = Some (VDict d)
    /\ lookup "Weight:" d = Some (VStr "5 lb").
Proof.
  assert (F : takes_fallback Catalog.select Catalog.loads
                (Catalog.response_of Catalog.detail_page) = true)
    by (vm_compute; reflexivity).
  destruct (fallback_specifications_pairs Catalog.select Catalog.loads
              Fixtures.spider (Catalog.response_of Catalog.detail_page) F)
    as (it & d & Y & S & L).
  - vm_compute. discriminate.
  - vm_compute. discriminate.
  - exists it, d. split; [exact Y|]. split; [exact S|].
    rewrite L. vm_compute. reflexivity.
Defined.

Lemma json_fields_from_details_witness :
  exists it,
    yielded Catalog.select Catalog.loads Fixtures.spider
      (Catalog.response_of (Fixtures.blob_page Catalog.json_null_entry))
    = inr it
    /\ it categories = Some VNone
    /\ it images = Some (VList []).
Proof.
  yields it Y. eexists. split; [reflexivity|].
  assert (B : blob Catalog.select Catalog.loads
                (Catalog.response_of
                   (Fixtures.blob_page Catalog.json_null_entry))
              = Some Catalog.value_null_entry) by (vm_compute; reflexivity).
  destruct (json_fields_from_details Catalog.select Catalog.loads
              Fixtures.spider
              (Catalog.response_of
                 (Fixtures.blob_page Catalog.json_null_entry))
              Catalog.value_null_entry _ B Y) as (pd & D & A).
  vm_compute in D. injection D as <-.
  rewrite Forall_forall in A. split.
  - apply (proj2 (A (categories, "categories", VList [])
                    ltac:(right; left; reflexivity))).
    reflexivity.
  - apply (proj1 (A (images, "images", VList [])
                    ltac:(do 3 right; left; reflexivity))).
    reflexivity.
Defined.

Lemma json_without_product_witness :
  exists it,
    yielded Fixtures.select Fixtures.loads Fixtures.spider
      (Fixtures.response_of Fixtures.priced_blob_page) = inr it
    /\ queries Fixtures.select Fixtures.loads Fixtures.spider
         (Fixtures.response_of Fixtures.priced_blob_page)
       = [initial_state_xpath]
    /\ map it [product_name; categories; model_no; images; specifications;
               description; variant; price; discount_price]
       = map Some [VNone; VList []; VNone; VList []; VList []; VStr "";
                   VStr ""; VNone; VNone].
Proof.
  apply (json_without_product Fixtures.select Fixtures.loads Fixtures.spider
           (Fixtures.response_of Fixtures.priced_blob_page) []).
  - vm_compute. reflexivity.
  - reflexivity.
Defined.

Lemma json_discount_none_iff_witness :
  exists it,
    yielded Catalog.select Catalog.loads Fixtures.spider
      (Catalog.response_of (Fixtures.blob_page Catalog.json_null_entry))
    = inr it
    /\ it discount_price = Some VNone.
Proof.
  yields it Y. eexists. split; [reflexivity|].
  assert (B : blob Catalog.select Catalog.loads
                (Catalog.response_of
                   (Fixtures.blob_page Catalog.json_null_entry))
              = Some Catalog.value_null_entry) by (vm_compute; reflexivity).
  destruct (json_discount_none_iff Catalog.select Catalog.loads
              Fixtures.spider
              (Catalog.response_of
                 (Fixtures.blob_page Catalog.json_null_entry))
              Catalog.value_null_entry _ B Y) as (pr & P & H).
  vm_compute in P. injection P as <-.
  cbv zeta in H. destruct H as (H & _).
  apply H. right. reflexivity.
Defined.
